(** * drugbank_downloader: a shallow embedding of [api.py]

    The module is sequential glue code around four external libraries
    (bioversions, pystow, zipfile, lxml).  The embedding threads an explicit
    [World] (cache directory, open handles, event trace) through an
    exception monad; the environment the libraries talk to (installed
    packages, configuration, the DrugBank server) is a read-only [Env]. *)

From stdpp Require Import gmap strings list fin_maps.
From Stdlib Require Import ZArith Ascii String.

Local Open Scope string_scope.
Local Open Scope list_scope.
Local Open Scope stdpp_scope.

(** ** Python strings *)

Module PyStr.

(** [s.startswith(p)] *)
Fixpoint startswith (p s : string) : bool :=
  match p, s with
  | EmptyString, _ => true
  | String a p', String b s' => if Ascii.eqb a b then startswith p' s' else false
  | String _ _, EmptyString => false
  end.

(** Scan of [str.replace] for a non-empty [old]: left to right, non-overlapping.
    [skip] counts the characters of a match that are still to be dropped. *)
Fixpoint replace_scan (old new : string) (skip : nat) (s : string) : string :=
  match s with
  | EmptyString => EmptyString
  | String c s' =>
      match skip with
      | S k => replace_scan old new k s'
      | O =>
          if startswith old s
          then new +:+ replace_scan old new (Nat.pred (String.length old)) s'
          else String c (replace_scan old new O s')
      end
  end.

(** An empty [old] matches before every character and at the end. *)
Fixpoint interleave (new s : string) : string :=
  match s with
  | EmptyString => new
  | String c s' => new +:+ String c (interleave new s')
  end.

(** [s.replace(old, new)] *)
Definition replace (old new s : string) : string :=
  match old with
  | EmptyString => interleave new s
  | String _ _ => replace_scan old new O s
  end.

(** The double quote character, for messages that quote text. *)
Definition dquote : string := String (Ascii.ascii_of_nat 34) EmptyString.

(** The line feed character. *)
Definition nl : string := String (Ascii.ascii_of_nat 10) EmptyString.

End PyStr.

(** ** Exceptions, files, the world *)

(** A path below the pystow storage root, as its list of segments. *)
Abbreviation Path := (list string).

(** Handles of open archives and streams. *)
Abbreviation Handle := nat.

(** An XML element as lxml hands it out; only what the module touches. *)
#[warnings="-register-all"]
Inductive Element : Type :=
| Elem (tag : string) (children : list Element).

Definition tag (e : Element) : string := match e with Elem t _ => t end.

(** [ElementTree]: a document with its root. *)
Record ElementTree : Type := { root : Element }.

(** The exceptions that can cross this module.  The first two are the ones
    the module raises itself; the others come from the Python runtime or the
    delegated libraries. *)
Inductive Exception : Type :=
| ImportError (msg : string)
| RuntimeError (msg : string)
| TypeError (msg : string)
| ConfigError (module key : string)
| OSError (msg : string)
| HTTPError (msg : string)
| BadZipFile (msg : string)
| KeyError (msg : string)
| ValueError (msg : string)
| XMLSyntaxError (msg : string).

(** I/O, HTTP, zip and XML-parsing errors. *)
Definition lower_level (e : Exception) : bool :=
  match e with
  | OSError _ | HTTPError _ | BadZipFile _ | KeyError _
  | ValueError _ | XMLSyntaxError _ => true
  | ImportError _ | RuntimeError _ | TypeError _ | ConfigError _ _ => false
  end.

(** [isinstance(e, ImportError)], as the [except ImportError] clause tests it. *)
Definition is_ImportError (e : Exception) : bool :=
  match e with ImportError _ => true | _ => false end.

(** What lxml makes of a byte stream: a tree, or the error it raises. *)
Abbreviation XmlSource := (Exception + ElementTree)%type.

(** The members of a zip archive, by name. *)
Abbreviation Archive := (list (string * XmlSource)).

(** A file of the cache: its size in bytes, and what zipfile makes of its
    content (the members, or the error raised on opening). *)
Record File : Type := {
  st_size : Z;
  zip_view : Exception + Archive
}.

(** What a handle gives access to while it is open. *)
Inductive Resource : Type :=
| ZipArchive (members : Archive)
| MemberStream (content : XmlSource).

(** Observable events, in the order they happen. *)
Inductive Event : Type :=
| GetVersion (name : string)
| GetConfig (module key : string) (passthrough : option string)
| Ensure (parts : list string) (url name : string)
         (backend : string) (stream : bool)
         (auth : option string * option string)
         (force : bool)
| Transfer (url : string) (auth : option string * option string) (dest : Path)
| Unlink (path : Path)
| Opened (h : Handle)
| Closed (h : Handle)
| Raised (e : Exception).

Record World : Type := {
  fs : gmap Path File;
  handles : gmap Handle Resource;
  next_handle : Handle;
  trace : list Event
}.

(** The environment of a run, which the module only reads. *)
Record Env : Type := {
  (** [None]: the bioversions package is not installed; otherwise what
      [bioversions.get_version("drugbank")] answers. *)
  bioversions : option (Exception + string);
  (** pystow's configuration (environment variables and ini files). *)
  config : string -> string -> option string;
  (** the server's answer to an authenticated GET. *)
  server : string -> option string * option string -> Exception + File
}.

(** ** The exception-and-state monad *)

Inductive Result (A : Type) : Type :=
| Ok (a : A)
| Raise (e : Exception).
Arguments Ok {A} a.
Arguments Raise {A} e.

Definition M (A : Type) : Type := World -> Result A * World.

Definition ret {A} (a : A) : M A := fun w => (Ok a, w).

Definition raise {A} (e : Exception) : M A := fun w => (Raise e, w).

Definition bind {A B} (m : M A) (k : A -> M B) : M B :=
  fun w =>
    match m w with
    | (Ok a, w1) => k a w1
    | (Raise e, w1) => (Raise e, w1)
    end.

Notation "'let*' x := m 'in' k" := (bind m (fun x => k))
  (at level 10, x name, m at level 100, k at level 200).

(** [try: m except <class>: handler else: k] *)
Definition try_except_else {A B} (m : M A) (caught : Exception -> bool)
    (handler : Exception -> M B) (k : A -> M B) : M B :=
  fun w =>
    match m w with
    | (Ok a, w1) => k a w1
    | (Raise e, w1) => if caught e then handler e w1 else (Raise e, w1)
    end.

(** [with enter as r: body r], for a context manager whose [__exit__]
    releases the resource and lets exceptions through. *)
Definition with_ {R A} (enter : M R) (release : R -> World -> World)
    (body : R -> M A) : M A :=
  fun w =>
    match enter w with
    | (Raise e, w1) => (Raise e, w1)
    | (Ok r, w1) =>
        match body r w1 with
        | (out, w2) => (out, release r w2)
        end
    end.

Definition log (ev : Event) (w : World) : World :=
  {| fs := fs w; handles := handles w; next_handle := next_handle w;
     trace := trace w ++ [ev] |}.

Definition set_fs (m : gmap Path File) (w : World) : World :=
  {| fs := m; handles := handles w; next_handle := next_handle w;
     trace := trace w |}.

Definition set_handles (hs : gmap Handle Resource) (n : Handle) (w : World) : World :=
  {| fs := fs w; handles := hs; next_handle := n; trace := trace w |}.

(** A library call that fails: the error is recorded, then raised. *)
Definition lib_raise {A} (e : Exception) : M A :=
  fun w => (Raise e, log (Raised e) w).

Definition emit (ev : Event) : M unit := fun w => (Ok tt, log ev w).

(** ** The delegated libraries

    None of them is part of the repository; each is modelled by the
    behaviour the module relies on. *)

Module textwrap.

Definition is_blank (c : ascii) : bool :=
  Ascii.eqb c " "%char || Ascii.eqb c (Ascii.ascii_of_nat 9).

(** The lines of a text, split at line feeds. *)
Fixpoint splitlines (cur : string) (s : string) : list string :=
  match s with
  | EmptyString => [cur]
  | String c s' =>
      if Ascii.eqb c (Ascii.ascii_of_nat 10)
      then cur :: splitlines EmptyString s'
      else splitlines (cur +:+ String c EmptyString) s'
  end.

Fixpoint joinlines (ls : list string) : string :=
  match ls with
  | [] => EmptyString
  | [l] => l
  | l :: ls' => l +:+ PyStr.nl +:+ joinlines ls'
  end.

Fixpoint all_blank (s : string) : bool :=
  match s with
  | EmptyString => true
  | String c s' => is_blank c && all_blank s'
  end.

(** The leading blanks of a line. *)
Fixpoint indent_of (s : string) : string :=
  match s with
  | EmptyString => EmptyString
  | String c s' => if is_blank c then String c (indent_of s') else EmptyString
  end.

(** The longest common prefix of two strings. *)
Fixpoint common_prefix (a b : string) : string :=
  match a, b with
  | String x a', String y b' =>
      if Ascii.eqb x y then String x (common_prefix a' b') else EmptyString
  | _, _ => EmptyString
  end.

Fixpoint drop_prefix (p s : string) : string :=
  match p, s with
  | String _ p', String _ s' => drop_prefix p' s'
  | _, _ => s
  end.

(** Modelled from the spec: [textwrap.dedent] of the standard library is
    not part of the repository.  Lines of blanks only become empty, and the
    margin common to the other lines is removed from each of them. *)
Definition dedent (text : string) : string :=
  let ls := map (fun l => if all_blank l then EmptyString else l)
                (splitlines EmptyString text) in
  let indents := map indent_of (filter (fun l => l <> EmptyString) ls) in
  let margin :=
    match indents with
    | [] => EmptyString
    | i :: rest => fold_left common_prefix rest i
    end in
  joinlines
    (map (fun l => if PyStr.startswith margin l then drop_prefix margin l else l)
         ls).

End textwrap.

(** [download_kwargs] as the module fills it in. *)
Record DownloadKwargs : Type := {
  backend : string;
  stream : bool;
  auth : option string * option string
}.

Section Libraries.

Context (env : Env).

(** Modelled from the spec: [import bioversions], the optional
    version-lookup dependency.  The import fails when the package is not
    installed; otherwise it gives access to the package's answer. *)
Definition import_bioversions : M (Exception + string) :=
  match bioversions env with
  | None => raise (ImportError "No module named 'bioversions'")
  | Some answer => ret answer
  end.

(** Modelled from the spec: [bioversions.get_version(name)], the external
    lookup of the latest known version of a dataset. *)
Definition get_version (answer : Exception + string) (name : string) : M string :=
  let* _ := emit (GetVersion name) in
  match answer with
  | inl e => lib_raise e
  | inr v => ret v
  end.

(** Modelled from the spec: [pystow.get_config(module, key, passthrough=,
    raise_on_missing=)], the named external configuration lookup.  An
    explicit value is handed back as it is; otherwise the configured value
    is looked up, and its absence is an error when the value is required. *)
Definition get_config (module key : string) (passthrough : option string)
    (raise_on_missing : bool) : M (option string) :=
  let* _ := emit (GetConfig module key passthrough) in
  match passthrough with
  | Some v => ret (Some v)
  | None =>
      match config env module key with
      | Some v => ret (Some v)
      | None =>
          if raise_on_missing then lib_raise (ConfigError module key)
          else ret None
      end
  end.

(** Modelled from the spec: the transfer pystow performs with the requests
    backend: one authenticated GET, streamed into the destination.  Nothing
    is kept at the destination when the transfer fails. *)
Definition download (url : string) (path : Path) (kw : DownloadKwargs) : M unit :=
  let* _ := emit (Transfer url (auth kw) path) in
  fun w =>
    match server env url (auth kw) with
    | inl e => lib_raise e (set_fs (delete path (fs w)) w)
    | inr f => (Ok tt, set_fs (<[path := f]> (fs w)) w)
    end.

(** Modelled from the spec: [pystow.ensure] with the path segments, [url],
    [name], [download_kwargs] and [force], the ensure-cached-download utility.  The
    file lives at [<parts...>/<name>] below the storage root; it is
    downloaded only when it is absent or when [force] is set. *)
Definition ensure (parts : list string) (url name : string)
    (download_kwargs : DownloadKwargs) (force : bool) : M Path :=
  let* _ := emit (Ensure parts url name (backend download_kwargs)
                    (stream download_kwargs) (auth download_kwargs) force) in
  let path := parts ++ [name] in
  fun w =>
    if force || negb (bool_decide (is_Some (fs w !! path)))
    then (let* _ := download url path download_kwargs in ret path) w
    else ret path w.

End Libraries.

Module pathlib.

(** Modelled from the spec: [Path.stat().st_size]. *)
Definition stat_size (path : Path) : M Z :=
  fun w =>
    match fs w !! path with
    | Some f => ret (st_size f) w
    | None => lib_raise (OSError "No such file or directory") w
    end.

(** Modelled from the spec: [Path.unlink()]. *)
Definition unlink (path : Path) : M unit :=
  fun w =>
    match fs w !! path with
    | Some _ => (Ok tt, log (Unlink path) (set_fs (delete path (fs w)) w))
    | None => lib_raise (OSError "No such file or directory") w
    end.

End pathlib.

Module zipfile.

(** A new open handle on a resource. *)
Definition acquire (r : Resource) : M Handle :=
  fun w =>
    let h := next_handle w in
    (Ok h, log (Opened h) (set_handles (<[h := r]> (handles w)) (S h) w)).

(** Modelled from the spec: [close()] of an archive or of a member stream,
    which is what leaving its [with] block does. *)
Definition close (h : Handle) (w : World) : World :=
  log (Closed h) (set_handles (delete h (handles w)) (next_handle w) w).

Fixpoint getinfo (name : string) (members : Archive) : option XmlSource :=
  match members with
  | [] => None
  | (n, content) :: rest =>
      if String.eqb n name then Some content else getinfo name rest
  end.

(** Modelled from the spec: [zipfile.ZipFile(path)], opening for reading. *)
Definition ZipFile (path : Path) : M Handle :=
  fun w =>
    match fs w !! path with
    | None => lib_raise (OSError "No such file or directory") w
    | Some f =>
        match zip_view f with
        | inl e => lib_raise e w
        | inr members => acquire (ZipArchive members) w
        end
    end.

(** Modelled from the spec: [ZipFile.open(name)], a readable stream on one
    member. *)
Definition open (zip_file : Handle) (name : string) : M Handle :=
  fun w =>
    match handles w !! zip_file with
    | Some (ZipArchive members) =>
        match getinfo name members with
        | Some content => acquire (MemberStream content) w
        | None => lib_raise (KeyError name) w
        end
    | _ => lib_raise (ValueError "Attempt to use ZIP archive that was already closed") w
    end.

End zipfile.

Module etree.

(** Modelled from the spec: [lxml.etree.parse(file)], which reads the whole
    stream and builds the document. *)
Definition parse (file : Handle) : M ElementTree :=
  fun w =>
    match handles w !! file with
    | Some (MemberStream (inr tree)) => ret tree w
    | Some (MemberStream (inl e)) => lib_raise e w
    | _ => lib_raise (ValueError "I/O operation on closed file") w
    end.

(** [tree.getroot()] *)
Definition getroot (tree : ElementTree) : Element := root tree.

End etree.

(** ** The module [drugbank_downloader.api] *)

(** The [prefix] argument: a bare string or a sequence of strings. *)
Inductive PrefixArg : Type :=
| PrefixStr (s : string)
| PrefixSeq (l : list string).

(** The validity threshold of a download, in bytes. *)
Definition threshold : Z := (5 * 1024 * 1024)%Z.

(** The f-string of the runtime error, before [dedent]. *)
Definition unapproved_text (version : string) : string :=
  let ind := "            " in
  textwrap.joinlines
    [ "";
      "";
      ind +:+ "Your DrugBank credentials were either invalid, or you";
      ind +:+ "have not been approved for downloads.";
      "";
      ind +:+ "Even after signing up for a DrugBank account and getting";
      ind +:+ "a valid username/password combination, DrugBank still has";
      ind +:+ "to manually approve your account to make an academic";
      ind +:+ "download of its data.";
      "";
      ind +:+ "You can tell if your credentials have not been approved by";
      ind +:+ "visiting https://go.drugbank.com/releases/" +:+ version +:+ "#full.";
      ind +:+ "If the download button says " +:+ PyStr.dquote
          +:+ "Ineligible for download" +:+ PyStr.dquote +:+ ", then";
      ind +:+ "you might need to contact DrugBank to get approved, e.g.,";
      ind +:+ "via https://go.drugbank.com/contact.";
      ind ].

Definition unapproved_message (version : string) : string :=
  textwrap.dedent (unapproved_text version).

Definition missing_bioversions_message : string :=
  "must first `pip install bioversions` to get latest DrugBank version automatically".

Section Api.

Context (env : Env).

(** [download_drugbank(username, password, version, prefix, force)] *)
Definition download_drugbank (username password version : option string)
    (prefix : option PrefixArg) (force : bool) : M Path :=
  let* version :=
    match version with
    | None =>
        try_except_else (import_bioversions env) is_ImportError
          (fun _ => raise (ImportError missing_bioversions_message))
          (fun bioversions => get_version bioversions "drugbank")
    | Some v => ret v
    end in
  let url :=
    "https://go.drugbank.com/releases/" +:+ PyStr.replace "." "-" version
      +:+ "/downloads/all-full-database" in
  let prefix :=
    match prefix with
    | None => ["drugbank"]
    | Some (PrefixStr s) => [s]
    | Some (PrefixSeq l) => l
    end in
  let* username := get_config env "drugbank" "username" username true in
  let* password := get_config env "drugbank" "password" password true in
  let* path :=
    ensure env (prefix ++ [version]) url "full database.xml.zip"
      {| backend := "requests"; stream := true; auth := (username, password) |}
      force in
  let* size := pathlib.stat_size path in
  if (size <? 5 * 1024 * 1024)%Z then
    let* _ := pathlib.unlink path in
    raise (RuntimeError (unapproved_message version))
  else
    ret path.

(** [open_drugbank(username, password, version, prefix)], a generator
    turned into a context manager: [block] is the body of the caller's
    [with] statement, which runs at the [yield]; an exception of the block
    is thrown into the generator there and leaves through both [with]
    statements. *)
Definition open_drugbank {A} (username password version : option string)
    (prefix : option PrefixArg) (block : Handle -> M A) : M A :=
  let* path := download_drugbank username password version prefix false in
  with_ (zipfile.ZipFile path) zipfile.close (fun zip_file =>
    with_ (zipfile.open zip_file "full database.xml") zipfile.close (fun file =>
      block file)).

(** [parse_drugbank(username, password, version, prefix)]; the two log
    messages around the parse are not modelled. *)
Definition parse_drugbank (username password version : option string)
    (prefix : option PrefixArg) : M ElementTree :=
  let* tree :=
    open_drugbank username password version prefix (fun file =>
      etree.parse file) in
  ret tree.

(** [get_drugbank_root(username, password, version, prefix)] *)
Definition get_drugbank_root (username password version : option string)
    (prefix : option PrefixArg) : M Element :=
  let* element_tree := parse_drugbank username password version prefix in
  ret (etree.getroot element_tree).

End Api.

(** ** Calling the public operations with keyword arguments *)

Inductive Operation : Type :=
| Op_get_drugbank_root
| Op_parse_drugbank
| Op_open_drugbank
| Op_download_drugbank.

Definition op_name (op : Operation) : string :=
  match op with
  | Op_get_drugbank_root => "get_drugbank_root"
  | Op_parse_drugbank => "parse_drugbank"
  | Op_open_drugbank => "open_drugbank"
  | Op_download_drugbank => "download_drugbank"
  end.

(** The parameters of each [def], in the order of its signature. *)
Definition parameters (op : Operation) : list string :=
  match op with
  | Op_get_drugbank_root => ["username"; "password"; "version"; "prefix"]
  | Op_parse_drugbank => ["username"; "password"; "version"; "prefix"]
  | Op_open_drugbank => ["username"; "password"; "version"; "prefix"]
  | Op_download_drugbank => ["username"; "password"; "version"; "prefix"; "force"]
  end.

(** The keyword arguments of a call; [None] is a keyword left out. *)
Record Kwargs : Type := {
  kw_username : option (option string);
  kw_password : option (option string);
  kw_version : option (option string);
  kw_prefix : option (option PrefixArg);
  kw_force : option bool
}.

Definition supplied (kw : Kwargs) : list string :=
  (if kw_username kw is Some _ then ["username"] else []) ++
  (if kw_password kw is Some _ then ["password"] else []) ++
  (if kw_version kw is Some _ then ["version"] else []) ++
  (if kw_prefix kw is Some _ then ["prefix"] else []) ++
  (if kw_force kw is Some _ then ["force"] else []).

(** Argument binding: a keyword that names no parameter is a [TypeError]. *)
Definition bind_arguments (op : Operation) (kw : Kwargs) : M unit :=
  match List.filter (fun k => negb (bool_decide (k ∈ parameters op))) (supplied kw) with
  | [] => ret tt
  | k :: _ =>
      raise (TypeError (op_name op +:+ "() got an unexpected keyword argument '"
                          +:+ k +:+ "'"))
  end.

Section Calls.

Context (env : Env).

Definition call_download_drugbank (kw : Kwargs) : M Path :=
  let* _ := bind_arguments Op_download_drugbank kw in
  download_drugbank env (default None (kw_username kw))
    (default None (kw_password kw)) (default None (kw_version kw))
    (default None (kw_prefix kw)) (default false (kw_force kw)).

Definition call_open_drugbank {A} (kw : Kwargs) (block : Handle -> M A) : M A :=
  let* _ := bind_arguments Op_open_drugbank kw in
  open_drugbank env (default None (kw_username kw))
    (default None (kw_password kw)) (default None (kw_version kw))
    (default None (kw_prefix kw)) block.

Definition call_parse_drugbank (kw : Kwargs) : M ElementTree :=
  let* _ := bind_arguments Op_parse_drugbank kw in
  parse_drugbank env (default None (kw_username kw))
    (default None (kw_password kw)) (default None (kw_version kw))
    (default None (kw_prefix kw)).

Definition call_get_drugbank_root (kw : Kwargs) : M Element :=
  let* _ := bind_arguments Op_get_drugbank_root kw in
  get_drugbank_root env (default None (kw_username kw))
    (default None (kw_password kw)) (default None (kw_version kw))
    (default None (kw_prefix kw)).

End Calls.

(** ** Stages of [download_drugbank] and vocabulary for the statements *)

Section Stages.

Context (env : Env).

(** The stages before validation (version, URL, prefix, credentials and the
    cached fetch), with the resolved version and the path they hand over. *)
Definition fetch (username password version : option string)
    (prefix : option PrefixArg) (force : bool) : M (string * Path) :=
  let* version :=
    match version with
    | None =>
        try_except_else (import_bioversions env) is_ImportError
          (fun _ => raise (ImportError missing_bioversions_message))
          (fun bioversions => get_version bioversions "drugbank")
    | Some v => ret v
    end in
  let url :=
    "https://go.drugbank.com/releases/" +:+ PyStr.replace "." "-" version
      +:+ "/downloads/all-full-database" in
  let prefix :=
    match prefix with
    | None => ["drugbank"]
    | Some (PrefixStr s) => [s]
    | Some (PrefixSeq l) => l
    end in
  let* username := get_config env "drugbank" "username" username true in
  let* password := get_config env "drugbank" "password" password true in
  let* path :=
    ensure env (prefix ++ [version]) url "full database.xml.zip"
      {| backend := "requests"; stream := true; auth := (username, password) |}
      force in
  ret (version, path).

(** The validation stage: the size check on the fetched artifact. *)
Definition validate (version : string) (path : Path) : M Path :=
  let* size := pathlib.stat_size path in
  if (size <? 5 * 1024 * 1024)%Z then
    let* _ := pathlib.unlink path in
    raise (RuntimeError (unapproved_message version))
  else
    ret path.

(** The version a call works with, when its resolution succeeds. *)
Definition resolved_version (version : option string) : option string :=
  match version with
  | Some v => Some v
  | None =>
      match bioversions env with
      | Some (inr v) => Some v
      | _ => None
      end
  end.

(** The value a credential resolves to: the explicit argument, else the
    configured value. *)
Definition credential (key : string) (explicit : option string) : option string :=
  match explicit with
  | Some v => Some v
  | None => config env "drugbank" key
  end.

End Stages.

(** The path segments a [prefix] argument stands for. *)
Definition prefix_segments (prefix : option PrefixArg) : list string :=
  match prefix with
  | None => ["drugbank"]
  | Some (PrefixStr s) => [s]
  | Some (PrefixSeq l) => l
  end.

(** The cache path of a (prefix, version): [<prefix...>/<version>/<name>]. *)
Definition cache_path (prefix : option PrefixArg) (version : string) : Path :=
  prefix_segments prefix ++ [version; "full database.xml.zip"].

(** A version with every dot turned into a hyphen. *)
Fixpoint hyphenate (v : string) : string :=
  match v with
  | EmptyString => EmptyString
  | String c v' =>
      String (if Ascii.eqb c "."%char then "-"%char else c) (hyphenate v')
  end.

Definition release_url (v : string) : string :=
  "https://go.drugbank.com/releases/" +:+ hyphenate v
    +:+ "/downloads/all-full-database".

Definition is_Transfer (ev : Event) : bool :=
  match ev with Transfer _ _ _ => true | _ => false end.

Definition is_GetVersion (ev : Event) : bool :=
  match ev with GetVersion _ => true | _ => false end.

Definition is_Ensure (ev : Event) : bool :=
  match ev with Ensure _ _ _ _ _ _ _ => true | _ => false end.

(** How many events of a kind a world has seen. *)
Definition count_events (kind : Event -> bool) (w : World) : nat :=
  List.length (List.filter kind (trace w)).

(** Network transfers seen so far. *)
Definition transfers (w : World) : nat := count_events is_Transfer w.

(** The cache path is absent, or holds an artifact of valid size. *)
Definition path_ok (w : World) (path : Path) : Prop :=
  match fs w !! path with
  | None => True
  | Some f => (threshold <= st_size f)%Z
  end.

Definition is_closed (w : World) (h : Handle) : Prop := handles w !! h = None.

(** The world after the version stage of a call. *)
Definition after_version (version : option string) (w : World) : World :=
  if version is None then log (GetVersion "drugbank") w else w.

(** The world in which the fetch starts, once version and credentials are
    resolved. *)
Definition before_ensure (username password version : option string)
    (w : World) : World :=
  log (GetConfig "drugbank" "password" password)
    (log (GetConfig "drugbank" "username" username)
       (after_version version w)).

Definition release_kwargs (u p : string) : DownloadKwargs :=
  {| backend := "requests"; stream := true; auth := (Some u, Some p) |}.

(** *** The runs of [ensure] and of [download_drugbank] as relations *)

(** The three ways a call of [ensure] can go, with the world it leaves. *)
Inductive Ensured (env : Env) (parts : list string) (url name : string)
    (kw : DownloadKwargs) (force : bool) (w : World) :
    Result Path * World -> Prop :=
| Ensured_hit f :
    force = false ->
    fs w !! (parts ++ [name]) = Some f ->
    Ensured env parts url name kw force w
      (Ok (parts ++ [name]),
       log (Ensure parts url name (backend kw) (stream kw) (auth kw) force) w)
| Ensured_transfer f :
    force = true \/ fs w !! (parts ++ [name]) = None ->
    server env url (auth kw) = inr f ->
    Ensured env parts url name kw force w
      (Ok (parts ++ [name]),
       set_fs (<[parts ++ [name] := f]> (fs w))
         (log (Transfer url (auth kw) (parts ++ [name]))
            (log (Ensure parts url name (backend kw) (stream kw) (auth kw) force) w)))
| Ensured_error e :
    force = true \/ fs w !! (parts ++ [name]) = None ->
    server env url (auth kw) = inl e ->
    Ensured env parts url name kw force w
      (Raise e,
       log (Raised e)
         (set_fs (delete (parts ++ [name]) (fs w))
            (log (Transfer url (auth kw) (parts ++ [name]))
               (log (Ensure parts url name (backend kw) (stream kw) (auth kw) force) w)))).

(** The seven ways a call of [download_drugbank] can go. *)
Inductive Run (env : Env) (username password version : option string)
    (prefix : option PrefixArg) (force : bool) (w : World) :
    Result Path * World -> Prop :=
| Run_not_installed :
    version = None ->
    bioversions env = None ->
    Run env username password version prefix force w
      (Raise (ImportError missing_bioversions_message), w)
| Run_lookup_error e :
    version = None ->
    bioversions env = Some (inl e) ->
    Run env username password version prefix force w
      (Raise e, log (Raised e) (log (GetVersion "drugbank") w))
| Run_missing_username v :
    resolved_version env version = Some v ->
    username = None ->
    config env "drugbank" "username" = None ->
    Run env username password version prefix force w
      (Raise (ConfigError "drugbank" "username"),
       log (Raised (ConfigError "drugbank" "username"))
         (log (GetConfig "drugbank" "username" None) (after_version version w)))
| Run_missing_password v u :
    resolved_version env version = Some v ->
    credential env "username" username = Some u ->
    password = None ->
    config env "drugbank" "password" = None ->
    Run env username password version prefix force w
      (Raise (ConfigError "drugbank" "password"),
       log (Raised (ConfigError "drugbank" "password"))
         (before_ensure username None version w))
| Run_fetch_error v u p e w1 :
    resolved_version env version = Some v ->
    credential env "username" username = Some u ->
    credential env "password" password = Some p ->
    Ensured env (prefix_segments prefix ++ [v]) (release_url v)
      "full database.xml.zip" (release_kwargs u p) force
      (before_ensure username password version w) (Raise e, w1) ->
    Run env username password version prefix force w (Raise e, w1)
| Run_accepted v u p w1 f :
    resolved_version env version = Some v ->
    credential env "username" username = Some u ->
    credential env "password" password = Some p ->
    Ensured env (prefix_segments prefix ++ [v]) (release_url v)
      "full database.xml.zip" (release_kwargs u p) force
      (before_ensure username password version w)
      (Ok (cache_path prefix v), w1) ->
    fs w1 !! cache_path prefix v = Some f ->
    (threshold <= st_size f)%Z ->
    Run env username password version prefix force w
      (Ok (cache_path prefix v), w1)
| Run_rejected v u p w1 f :
    resolved_version env version = Some v ->
    credential env "username" username = Some u ->
    credential env "password" password = Some p ->
    Ensured env (prefix_segments prefix ++ [v]) (release_url v)
      "full database.xml.zip" (release_kwargs u p) force
      (before_ensure username password version w)
      (Ok (cache_path prefix v), w1) ->
    fs w1 !! cache_path prefix v = Some f ->
    (st_size f < threshold)%Z ->
    Run env username password version prefix force w
      (Raise (RuntimeError (unapproved_message v)),
       log (Unlink (cache_path prefix v))
         (set_fs (delete (cache_path prefix v) (fs w1)) w1)).

(** What an event of a call of [download_drugbank] has to look like. *)
Definition expected_event (env : Env) (username password version : option string)
    (prefix : option PrefixArg) (force : bool) (ev : Event) : Prop :=
  match ev with
  | GetVersion name => version = None /\ name = "drugbank"
  | GetConfig module key passthrough =>
      module = "drugbank" /\
      ((key = "username" /\ passthrough = username) \/
       (key = "password" /\ passthrough = password))
  | Ensure parts url name b s a f =>
      exists v u p,
        resolved_version env version = Some v /\
        credential env "username" username = Some u /\
        credential env "password" password = Some p /\
        parts = prefix_segments prefix ++ [v] /\ url = release_url v /\
        name = "full database.xml.zip" /\ b = "requests" /\ s = true /\
        a = (Some u, Some p) /\ f = force
  | Transfer url a dest =>
      exists v u p,
        resolved_version env version = Some v /\
        credential env "username" username = Some u /\
        credential env "password" password = Some p /\
        url = release_url v /\ a = (Some u, Some p) /\
        dest = cache_path prefix v
  | Unlink path =>
      exists v, resolved_version env version = Some v /\
        path = cache_path prefix v
  | Opened _ | Closed _ => False
  | Raised e => True
  end.

(** [__enter__] of the context manager [open_drugbank]: the generator runs
    up to its [yield], with the archive and the member stream open.  When
    opening the member fails, the [with] on the archive has already closed
    it again. *)
Definition open_drugbank_enter (env : Env) (username password version : option string)
    (prefix : option PrefixArg) : M (Handle * Handle) :=
  let* path := download_drugbank env username password version prefix false in
  let* zip_file := zipfile.ZipFile path in
  fun w =>
    match zipfile.open zip_file "full database.xml" w with
    | (Ok file, w1) => (Ok (zip_file, file), w1)
    | (Raise e, w1) => (Raise e, zipfile.close zip_file w1)
    end.

Definition is_open (w : World) (h : Handle) : Prop := is_Some (handles w !! h).

(** What reading the member "full database.xml" of a cached file leads to:
    the document, or the error of zipfile or of the parser. *)
Definition member_outcome (f : File) : Exception + ElementTree :=
  match zip_view f with
  | inl e => inl e
  | inr members =>
      match zipfile.getinfo "full database.xml" members with
      | None => inl (KeyError "full database.xml")
      | Some content => content
      end
  end.

(** A string without line feed. *)
Fixpoint no_newline (s : string) : bool :=
  match s with
  | EmptyString => true
  | String c s' => negb (Ascii.eqb c (Ascii.ascii_of_nat 10)) && no_newline s'
  end.

(** The [ensure] event of a call whose version and credentials are known. *)
Definition ensure_event (prefix : option PrefixArg) (v u p : string)
    (force : bool) : Event :=
  Ensure (prefix_segments prefix ++ [v]) (release_url v)
    "full database.xml.zip" "requests" true (Some u, Some p) force.

(** Concrete environments and worlds, for examples. *)
Module Sample.

Definition empty_world : World :=
  {| fs := ∅; handles := ∅; next_handle := 0; trace := [] |}.

(** A genuine release archive, of exactly the threshold size. *)
Definition archive : File :=
  {| st_size := 5 * 1024 * 1024;
     zip_view := inr [("full database.xml", inr {| root := Elem "drugbank" [] |})] |}.

(** The page served to an account that is not approved, one byte short. *)
Definition landing_page : File :=
  {| st_size := 5 * 1024 * 1024 - 1;
     zip_view := inl (BadZipFile "File is not a zip file") |}.

Definition configured (module key : string) : option string :=
  if String.eqb module "drugbank" then
    if String.eqb key "username" then Some "alice"
    else if String.eqb key "password" then Some "secret"
    else None
  else None.

Definition unconfigured (module key : string) : option string := None.

(** bioversions installed, credentials configured, account approved. *)
Definition approved : Env :=
  {| bioversions := Some (inr "5.1.9"); config := configured;
     server := fun _ _ => inr archive |}.

(** As [approved], but the server answers with the landing page. *)
Definition unapproved : Env :=
  {| bioversions := Some (inr "5.1.9"); config := configured;
     server := fun _ _ => inr landing_page |}.

(** bioversions installed, but no credentials configured. *)
Definition anonymous : Env :=
  {| bioversions := Some (inr "5.1.9"); config := unconfigured;
     server := fun _ _ => inr archive |}.

(** Neither bioversions nor credentials. *)
Definition bare : Env :=
  {| bioversions := None; config := unconfigured;
     server := fun _ _ => inr archive |}.

(** A cache that already holds a file at the default path of 5.1.9. *)
Definition cached (f : File) : World :=
  {| fs := {[ ["drugbank"; "5.1.9"; "full database.xml.zip"] := f ]};
     handles := ∅; next_handle := 0; trace := [] |}.

(** Credentials configured, but the server is down. *)
Definition unavailable : Env :=
  {| bioversions := Some (inr "5.1.9"); config := configured;
     server := fun _ _ => inl (HTTPError "503 Service Unavailable") |}.

(** A call that passes only [force=True]. *)
Definition force_only : Kwargs :=
  {| kw_username := None; kw_password := None; kw_version := None;
     kw_prefix := None; kw_force := Some true |}.

End Sample.

(** ** Basic facts *)

Lemma replace_dots (v : string) : PyStr.replace "." "-" v = hyphenate v.
Proof.
  unfold PyStr.replace.
  induction v as [|c v IH]; [reflexivity|].
  cbn [PyStr.replace_scan PyStr.startswith hyphenate].
  rewrite Ascii.eqb_sym.
  destruct (Ascii.eqb c "."); cbn; rewrite IH; reflexivity.
Qed.

Section Facts.

Context (env : Env).

Lemma download_drugbank_stages username password version prefix force w :
  download_drugbank env username password version prefix force w =
  (let* vp := fetch env username password version prefix force in
   validate vp.1 vp.2) w.
Proof.
  unfold download_drugbank, fetch, validate, bind, ret.
  repeat (match goal with
  | |- context [match ?x with (_, _) => _ end] => destruct x as [[?|?] ?]
  end; cbn [fst snd]); reflexivity.
Qed.

Lemma validate_small version path w f :
  fs w !! path = Some f -> (st_size f < threshold)%Z ->
  validate version path w =
  (Raise (RuntimeError (unapproved_message version)),
   log (Unlink path) (set_fs (delete path (fs w)) w)).
Proof.
  intros Hf Hlt. unfold validate, bind, pathlib.stat_size, pathlib.unlink, ret, raise.
  rewrite Hf. unfold threshold in Hlt.
  destruct (Z.ltb_spec (st_size f) (5 * 1024 * 1024)); [|lia].
  rewrite Hf. reflexivity.
Qed.

Lemma validate_big version path w f :
  fs w !! path = Some f -> (threshold <= st_size f)%Z ->
  validate version path w = (Ok path, w).
Proof.
  intros Hf Hge. unfold validate, bind, pathlib.stat_size, ret.
  rewrite Hf. unfold threshold in Hge.
  destruct (Z.ltb_spec (st_size f) (5 * 1024 * 1024)); [lia|reflexivity].
Qed.

Lemma validate_absent version path w :
  fs w !! path = None ->
  validate version path w =
  (Raise (OSError "No such file or directory"),
   log (Raised (OSError "No such file or directory")) w).
Proof.
  intros Hf. unfold validate, bind, pathlib.stat_size, lib_raise.
  rewrite Hf. reflexivity.
Qed.

Lemma fetch_resolved username password version prefix force w v u p :
  resolved_version env version = Some v ->
  credential env "username" username = Some u ->
  credential env "password" password = Some p ->
  fetch env username password version prefix force w =
  (let* path :=
     ensure env (prefix_segments prefix ++ [v]) (release_url v)
       "full database.xml.zip" (release_kwargs u p) force in
   ret (v, path)) (before_ensure username password version w).
Proof.
  intros Hv Hu Hp.
  unfold fetch, before_ensure, release_url, release_kwargs.
  rewrite <- replace_dots.
  unfold bind at 1.
  assert (Hver :
    match version with
    | None =>
        try_except_else (import_bioversions env) is_ImportError
          (fun _ => raise (ImportError missing_bioversions_message))
          (fun bioversions => get_version bioversions "drugbank")
    | Some v0 => ret v0
    end w = (Ok v, if version is None then log (GetVersion "drugbank") w else w)).
  { destruct version as [v0|]; cbn in Hv.
    - by simplify_eq.
    - unfold try_except_else, import_bioversions.
      destruct (bioversions env) as [[e|v0]|]; simplify_eq. reflexivity. }
  rewrite Hver. clear Hver.
  set (wv := if version is None then _ else w).
  unfold bind at 1, get_config at 1, bind at 1, emit.
  assert (Hcred : forall key explicit x w',
    credential env key explicit = Some x ->
    match explicit with
    | Some v0 => ret (Some v0)
    | None =>
        match config env "drugbank" key with
        | Some v0 => ret (Some v0)
        | None => if true then lib_raise (ConfigError "drugbank" key) else ret None
        end
    end w' = (Ok (Some x), w')).
  { intros key [x0|] x w' H; cbn in H; [by simplify_eq|]. by rewrite H. }
  rewrite (Hcred _ _ _ _ Hu).
  unfold bind at 1, get_config at 1, bind at 1, emit.
  rewrite (Hcred _ _ _ _ Hp).
  destruct prefix as [[s|l]|]; reflexivity.
Qed.

Lemma ensure_hit parts url name kw w f :
  fs w !! (parts ++ [name]) = Some f ->
  ensure env parts url name kw false w =
  (Ok (parts ++ [name]),
   log (Ensure parts url name (backend kw) (stream kw) (auth kw) false) w).
Proof.
  intros Hf. unfold ensure, bind, emit. cbn [fs log].
  rewrite Hf. rewrite bool_decide_eq_true_2 by eauto. reflexivity.
Qed.

Lemma ensure_transfer_ok parts url name kw force w f :
  force = true \/ fs w !! (parts ++ [name]) = None ->
  server env url (auth kw) = inr f ->
  ensure env parts url name kw force w =
  (Ok (parts ++ [name]),
   set_fs (<[parts ++ [name] := f]> (fs w))
     (log (Transfer url (auth kw) (parts ++ [name]))
        (log (Ensure parts url name (backend kw) (stream kw) (auth kw) force) w))).
Proof.
  intros Hmiss Hs. unfold ensure, bind at 1, emit. cbn [fs log].
  assert (force || negb (bool_decide (is_Some (fs w !! (parts ++ [name])))) = true) as ->.
  { destruct Hmiss as [->|Hn]; [reflexivity|].
    rewrite Hn, bool_decide_eq_false_2; [by rewrite orb_true_r|].
    by intros [? ?]. }
  unfold bind, download, bind, emit, ret. rewrite Hs. reflexivity.
Qed.

Lemma ensure_transfer_error parts url name kw force w e :
  force = true \/ fs w !! (parts ++ [name]) = None ->
  server env url (auth kw) = inl e ->
  ensure env parts url name kw force w =
  (Raise e,
   log (Raised e)
     (set_fs (delete (parts ++ [name]) (fs w))
        (log (Transfer url (auth kw) (parts ++ [name]))
           (log (Ensure parts url name (backend kw) (stream kw) (auth kw) force) w)))).
Proof.
  intros Hmiss Hs. unfold ensure, bind at 1, emit. cbn [fs log].
  assert (force || negb (bool_decide (is_Some (fs w !! (parts ++ [name])))) = true) as ->.
  { destruct Hmiss as [->|Hn]; [reflexivity|].
    rewrite Hn, bool_decide_eq_false_2; [by rewrite orb_true_r|].
    by intros [? ?]. }
  unfold bind, download, bind, emit, ret, lib_raise. rewrite Hs. reflexivity.
Qed.

Lemma fetch_not_installed username password prefix force w :
  bioversions env = None ->
  fetch env username password None prefix force w =
  (Raise (ImportError missing_bioversions_message), w).
Proof.
  intros Hb. unfold fetch, bind, try_except_else, import_bioversions.
  rewrite Hb. reflexivity.
Qed.

Lemma fetch_lookup_error username password prefix force w e :
  bioversions env = Some (inl e) ->
  fetch env username password None prefix force w =
  (Raise e, log (Raised e) (log (GetVersion "drugbank") w)).
Proof.
  intros Hb. unfold fetch, bind, try_except_else, import_bioversions.
  rewrite Hb. reflexivity.
Qed.

Lemma fetch_missing_username password version prefix force w v :
  resolved_version env version = Some v ->
  config env "drugbank" "username" = None ->
  fetch env None password version prefix force w =
  (Raise (ConfigError "drugbank" "username"),
   log (Raised (ConfigError "drugbank" "username"))
     (log (GetConfig "drugbank" "username" None)
        (if version is None then log (GetVersion "drugbank") w else w))).
Proof.
  intros Hv Hc. unfold fetch, bind, try_except_else, import_bioversions,
    get_config, bind, emit, lib_raise.
  destruct version as [v0|]; cbn in Hv.
  - cbn. rewrite Hc. reflexivity.
  - destruct (bioversions env) as [[e|v0]|]; simplify_eq.
    cbn. rewrite Hc. reflexivity.
Qed.

Lemma fetch_missing_password username version prefix force w v u :
  resolved_version env version = Some v ->
  credential env "username" username = Some u ->
  config env "drugbank" "password" = None ->
  fetch env username None version prefix force w =
  (Raise (ConfigError "drugbank" "password"),
   log (Raised (ConfigError "drugbank" "password"))
     (before_ensure username None version w)).
Proof.
  intros Hv Hu Hc. unfold fetch, bind, try_except_else, import_bioversions,
    get_config, bind, emit, lib_raise, before_ensure.
  destruct version as [v0|]; cbn in Hv.
  - destruct username as [u0|]; cbn in Hu |- *.
    + rewrite Hc. reflexivity.
    + rewrite Hu. cbn. rewrite Hc. reflexivity.
  - destruct (bioversions env) as [[e|v0]|]; simplify_eq.
    destruct username as [u0|]; cbn in Hu |- *.
    + rewrite Hc. reflexivity.
    + rewrite Hu. cbn. rewrite Hc. reflexivity.
Qed.

(** Every run of the fetch stage is of one of five kinds. *)
Lemma fetch_cases (username password version : option string) :
  (version = None /\ bioversions env = None)
  \/ (exists e, version = None /\ bioversions env = Some (inl e))
  \/ (exists v, resolved_version env version = Some v /\
        username = None /\ config env "drugbank" "username" = None)
  \/ (exists v u, resolved_version env version = Some v /\
        credential env "username" username = Some u /\
        password = None /\ config env "drugbank" "password" = None)
  \/ (exists v u p, resolved_version env version = Some v /\
        credential env "username" username = Some u /\
        credential env "password" password = Some p).
Proof.
  assert (Hcred : forall key x, credential env key x = None \/
                   exists y, credential env key x = Some y).
  { intros key x. destruct (credential env key x); eauto. }
  assert (Hnone : forall key x, credential env key x = None ->
                   x = None /\ config env "drugbank" key = None).
  { intros key [x|] H; cbn in H; [discriminate|done]. }
  destruct (resolved_version env version) as [v|] eqn:Hv.
  - destruct (Hcred "username" username) as [Hu|[u Hu]].
    + apply Hnone in Hu as [-> Hu]. right; right; left. eauto.
    + destruct (Hcred "password" password) as [Hp|[p Hp]].
      * apply Hnone in Hp as [-> Hp]. right; right; right; left. eauto 10.
      * right; right; right; right. eauto 10.
  - destruct version as [v0|]; cbn in Hv; [discriminate|].
    destruct (bioversions env) as [[e|v0]|]; simplify_eq; eauto.
Qed.

(** Every run of [ensure] is a cache hit or one transfer. *)
Lemma ensure_cases parts url name kw force w :
  (exists f, force = false /\ fs w !! (parts ++ [name]) = Some f)
  \/ ((force = true \/ fs w !! (parts ++ [name]) = None) /\
      exists f, server env url (auth kw) = inr f)
  \/ ((force = true \/ fs w !! (parts ++ [name]) = None) /\
      exists e, server env url (auth kw) = inl e).
Proof.
  assert (Hs : (exists f, server env url (auth kw) = inr f) \/
               (exists e, server env url (auth kw) = inl e)).
  { destruct (server env url (auth kw)); eauto. }
  destruct force.
  - destruct Hs; [right; left|right; right]; eauto.
  - destruct (fs w !! (parts ++ [name])) as [f|] eqn:Hf; [left; eauto|].
    destruct Hs; [right; left|right; right]; eauto.
Qed.

End Facts.

(** ** The relations describe the functions *)

Lemma ensure_run env parts url name kw force w :
  Ensured env parts url name kw force w (ensure env parts url name kw force w).
Proof.
  destruct (ensure_cases env parts url name kw force w)
    as [(f & -> & Hf)|[(Hm & f & Hs)|(Hm & e & Hs)]].
  - rewrite (ensure_hit env _ _ _ _ _ _ Hf). by eapply Ensured_hit.
  - rewrite (ensure_transfer_ok env _ _ _ _ _ _ _ Hm Hs). by eapply Ensured_transfer.
  - rewrite (ensure_transfer_error env _ _ _ _ _ _ _ Hm Hs). by eapply Ensured_error.
Qed.

(** A successful [ensure] returns the path it was asked for, and the file
    is there. *)
Lemma Ensured_ok env parts url name kw force w path w1 :
  Ensured env parts url name kw force w (Ok path, w1) ->
  path = parts ++ [name] /\ is_Some (fs w1 !! path).
Proof.
  inversion 1; subst; (split; [reflexivity|]); cbn.
  - eauto.
  - rewrite lookup_insert_eq. eauto.
Qed.

Lemma cache_path_segments prefix v :
  (prefix_segments prefix ++ [v]) ++ ["full database.xml.zip"] = cache_path prefix v.
Proof. unfold cache_path. by rewrite <- app_assoc. Qed.

Lemma download_drugbank_run env username password version prefix force w :
  Run env username password version prefix force w
    (download_drugbank env username password version prefix force w).
Proof.
  rewrite download_drugbank_stages. unfold bind at 1.
  destruct (fetch_cases env username password version)
    as [[-> Hb]|[(e & -> & Hb)|[(v & Hv & -> & Hc)|[(v & u & Hv & Hu & -> & Hc)
       |(v & u & p & Hv & Hu & Hp)]]]].
  - rewrite (fetch_not_installed env _ _ _ _ _ Hb). by apply Run_not_installed.
  - rewrite (fetch_lookup_error env _ _ _ _ _ _ Hb). by apply Run_lookup_error.
  - rewrite (fetch_missing_username env _ _ _ _ _ _ Hv Hc).
    by eapply Run_missing_username.
  - rewrite (fetch_missing_password env _ _ _ _ _ _ _ Hv Hu Hc).
    by eapply Run_missing_password.
  - rewrite (fetch_resolved env _ _ _ _ _ _ _ _ _ Hv Hu Hp). unfold bind at 1.
    pose proof (ensure_run env (prefix_segments prefix ++ [v]) (release_url v)
      "full database.xml.zip" (release_kwargs u p) force
      (before_ensure username password version w)) as He.
    destruct (ensure _ _ _ _ _ _ _) as [[path|e] w1].
    + destruct (Ensured_ok _ _ _ _ _ _ _ _ _ He) as [Hpath [f Hf]].
      rewrite cache_path_segments in Hpath. subst path. cbn [ret fst snd].
      destruct (Z.lt_ge_cases (st_size f) threshold) as [Hlt|Hge].
      * rewrite (validate_small _ _ _ _ Hf Hlt). by eapply Run_rejected.
      * rewrite (validate_big _ _ _ _ Hf Hge). by eapply Run_accepted.
    + by eapply Run_fetch_error.
Qed.

(** ** The events of a call *)

Ltac trace_norm :=
  unfold before_ensure, after_version, release_kwargs in *;
  cbn [trace log set_fs fs fst snd auth backend stream] in *;
  rewrite <- ?app_assoc; cbn [app].

(** Every run of [download_drugbank] extends the trace, and only by events
    of the expected shape. *)
Lemma Run_trace env username password version prefix force w out :
  Run env username password version prefix force w out ->
  exists evs,
    trace out.2 = trace w ++ evs /\
    Forall (expected_event env username password version prefix force) evs /\
    (forall v u p,
       resolved_version env version = Some v ->
       credential env "username" username = Some u ->
       credential env "password" password = Some p ->
       Ensure (prefix_segments prefix ++ [v]) (release_url v)
         "full database.xml.zip" "requests" true (Some u, Some p) force ∈ evs).
Proof.
  destruct 1 as [Hn Hb|e Hn Hb|v Hv Hu Hc|v u Hv Hu Hp Hc|v u p e w1 Hv Hu Hp He
    |v u p w1 f Hv Hu Hp He Hf Hsz|v u p w1 f Hv Hu Hp He Hf Hsz];
    try (inversion He; subst; clear He).
  all: subst; try (destruct version as [v0|]); try discriminate.
  all: eexists; split;
    [trace_norm; first [reflexivity | symmetry; apply app_nil_r]|].
  all: split;
    [rewrite ?cache_path_segments;
     repeat (first [apply Forall_nil_2 | apply Forall_cons_2]); cbn; eauto 20|].
  all: intros v' u' p' Hv' Hu' Hp'; cbn in *; simplify_eq.
  all: try (rewrite Hb in Hv'; discriminate).
  all: by repeat constructor.
Qed.

(** A run that returns has validated the file at the cache path. *)
Lemma Run_ok env username password version prefix force w path w1 :
  Run env username password version prefix force w (Ok path, w1) ->
  exists v f,
    resolved_version env version = Some v /\ path = cache_path prefix v /\
    fs w1 !! path = Some f /\ (threshold <= st_size f)%Z.
Proof. inversion 1; subst. eauto 10. Qed.

Lemma filter_none (kind : Event -> bool) (evs : list Event) :
  Forall (fun ev => kind ev = false) evs -> List.filter kind evs = [].
Proof.
  induction 1 as [|ev evs Hev _ IH]; [reflexivity|].
  cbn. by rewrite Hev.
Qed.

Lemma count_events_app kind w w' evs :
  trace w' = trace w ++ evs ->
  count_events kind w' =
  (count_events kind w + List.length (List.filter kind evs))%nat.
Proof.
  intros H. unfold count_events. by rewrite H, List.filter_app, length_app.
Qed.


(** ** The validator *)

(** C1.  For every fetched artifact, [download_drugbank] raises the
    unapproved-account runtime error exactly when the size of the file is
    strictly below 5*1024*1024 bytes.  Below the threshold the file is
    deleted (and nothing else happens) before the error is raised; at or
    above it the path is returned and the world is left as the fetch left
    it.  In particular a file of 5*1024*1024-1 bytes is deleted and
    rejected, and a file of 5*1024*1024 bytes passes. *)
Theorem size_threshold_validation env username password version prefix force
    w v path w1 f :
  fetch env username password version prefix force w = (Ok (v, path), w1) ->
  fs w1 !! path = Some f ->
  let out := download_drugbank env username password version prefix force w in
  (out.1 = Raise (RuntimeError (unapproved_message v))
     <-> (st_size f < 5 * 1024 * 1024)%Z)
  /\ ((st_size f < 5 * 1024 * 1024)%Z ->
        fs out.2 !! path = None /\ trace out.2 = trace w1 ++ [Unlink path])
  /\ ((5 * 1024 * 1024 <= st_size f)%Z -> out = (Ok path, w1))
  /\ (st_size f = (5 * 1024 * 1024 - 1)%Z ->
        out.1 = Raise (RuntimeError (unapproved_message v))
        /\ fs out.2 !! path = None)
  /\ (st_size f = (5 * 1024 * 1024)%Z -> out.1 = Ok path).
Proof.
  intros Hfetch Hf out.
  assert (Hout : out = validate v path w1).
  { unfold out. rewrite download_drugbank_stages. unfold bind at 1.
    rewrite Hfetch. reflexivity. }
  assert (Hsmall : (st_size f < 5 * 1024 * 1024)%Z ->
    out = (Raise (RuntimeError (unapproved_message v)),
           log (Unlink path) (set_fs (delete path (fs w1)) w1))).
  { intros Hlt. rewrite Hout. by apply validate_small with f. }
  assert (Hbig : (5 * 1024 * 1024 <= st_size f)%Z -> out = (Ok path, w1)).
  { intros Hge. rewrite Hout. by apply validate_big with f. }
  assert (Hgone : (st_size f < 5 * 1024 * 1024)%Z ->
    fs out.2 !! path = None /\ trace out.2 = trace w1 ++ [Unlink path]).
  { intros Hlt. rewrite (Hsmall Hlt). cbn. by rewrite lookup_delete_eq. }
  split; [split|split; [|split; [|split]]].
  - intros Hr. destruct (Z.lt_ge_cases (st_size f) (5 * 1024 * 1024)) as [|Hge];
      [done|]. rewrite (Hbig Hge) in Hr. discriminate.
  - intros Hlt. by rewrite (Hsmall Hlt).
  - exact Hgone.
  - exact Hbig.
  - intros Heq. split; [rewrite Hsmall by lia; reflexivity|apply Hgone; lia].
  - intros Heq. rewrite Hbig by lia. reflexivity.
Qed.

Lemma size_threshold_validation_witness :
  let out := download_drugbank Sample.unapproved None None None None false
               Sample.empty_world in
  out.1 = Raise (RuntimeError (unapproved_message "5.1.9"))
  /\ fs out.2 !! ["drugbank"; "5.1.9"; "full database.xml.zip"] = None.
Proof.
  refine (proj1 (proj2 (proj2 (proj2
    (size_threshold_validation Sample.unapproved None None None None false
       Sample.empty_world "5.1.9"
       ["drugbank"; "5.1.9"; "full database.xml.zip"]
       (fetch Sample.unapproved None None None None false Sample.empty_world).2
       Sample.landing_page _ _)))) _).
  - vm_compute. reflexivity.
  - vm_compute. reflexivity.
  - reflexivity.
Defined.

(** ** Version resolution *)

(** C3.  With an explicit version [v], [download_drugbank] never asks the
    version-lookup dependency; every call of [ensure] and every transfer it
    causes uses the URL
    https://go.drugbank.com/releases/<v, dots turned into hyphens>/downloads/all-full-database
    and the cache path <prefix...>/<v>/full database.xml.zip, in which [v]
    is unchanged; [ensure] is indeed called so once the credentials are
    resolved; and a returned path is that cache path. *)
Theorem explicit_version_verbatim env username password v prefix force w :
  let out := download_drugbank env username password (Some v) prefix force w in
  count_events is_GetVersion out.2 = count_events is_GetVersion w
  /\ (exists evs,
        trace out.2 = trace w ++ evs
        /\ (forall parts url name b s a f,
              Ensure parts url name b s a f ∈ evs ->
              url = "https://go.drugbank.com/releases/" +:+ hyphenate v
                      +:+ "/downloads/all-full-database"
              /\ parts ++ [name] =
                 prefix_segments prefix ++ [v; "full database.xml.zip"])
        /\ (forall url a dest,
              Transfer url a dest ∈ evs ->
              url = "https://go.drugbank.com/releases/" +:+ hyphenate v
                      +:+ "/downloads/all-full-database"
              /\ dest = prefix_segments prefix ++ [v; "full database.xml.zip"])
        /\ (forall u p,
              credential env "username" username = Some u ->
              credential env "password" password = Some p ->
              Ensure (prefix_segments prefix ++ [v])
                ("https://go.drugbank.com/releases/" +:+ hyphenate v
                   +:+ "/downloads/all-full-database")
                "full database.xml.zip" "requests" true (Some u, Some p) force
                ∈ evs))
  /\ (forall path, out.1 = Ok path ->
        path = prefix_segments prefix ++ [v; "full database.xml.zip"]).
Proof.
  intros out.
  pose proof (download_drugbank_run env username password (Some v) prefix force w)
    as Hrun. fold out in Hrun.
  destruct (Run_trace _ _ _ _ _ _ _ _ Hrun) as (evs & Htr & Hall & Hcalled).
  rewrite Forall_forall in Hall.
  split; [|split].
  - rewrite (count_events_app _ _ _ _ Htr), filter_none; [cbn; lia|].
    apply Forall_forall. intros [] Hev; try reflexivity.
    apply Hall in Hev as [? _]. discriminate.
  - exists evs. split; [done|]. split; [|split].
    + intros * Hev. apply Hall in Hev as (v' & u & p & Hv & _ & _ & -> & -> & -> & _).
      cbn in Hv. simplify_eq. split; [reflexivity|apply cache_path_segments].
    + intros * Hev. apply Hall in Hev as (v' & u & p & Hv & _ & _ & -> & _ & ->).
      cbn in Hv. by simplify_eq.
    + intros u p Hu Hp. by apply Hcalled.
  - intros path Hpath. destruct out as [r w1]. cbn in Hpath. subst r.
    apply Run_ok in Hrun as (v' & f & Hv & -> & _). cbn in Hv. by simplify_eq.
Qed.

(** [hyphenate] keeps every character in place, but for the dots. *)
Lemma hyphenate_get (v : string) (n : nat) :
  String.get n (hyphenate v) =
  option_map (fun c => if Ascii.eqb c "."%char then "-"%char else c)
             (String.get n v).
Proof.
  revert n. induction v as [|c v IH]; intros [|n]; cbn; try reflexivity.
  apply IH.
Qed.

(** C5.  With no version given and bioversions not installed, the call
    fails at once with the [ImportError] that tells how to install it; the
    world is untouched, so nothing is looked up, fetched or deleted. *)
Theorem missing_bioversions_fails_fast env username password prefix force w :
  bioversions env = None ->
  download_drugbank env username password None prefix force w =
  (Raise (ImportError
     "must first `pip install bioversions` to get latest DrugBank version automatically"),
   w).
Proof.
  intros Hb. rewrite download_drugbank_stages. unfold bind.
  by rewrite (fetch_not_installed env _ _ _ _ _ Hb).
Qed.

Lemma missing_bioversions_fails_fast_witness :
  (download_drugbank Sample.bare None None None None true Sample.empty_world).2
  = Sample.empty_world.
Proof.
  rewrite (missing_bioversions_fails_fast Sample.bare None None None true
             Sample.empty_world); reflexivity.
Defined.

(** ** The prefix *)

(** C10.  A bare string [s] as prefix behaves as the one-element sequence
    [[s]], and no prefix behaves as [["drugbank"]]. *)
Theorem prefix_normalisation env username password version force s w :
  download_drugbank env username password version (Some (PrefixStr s)) force w
  = download_drugbank env username password version (Some (PrefixSeq [s])) force w
  /\ download_drugbank env username password version None force w
     = download_drugbank env username password version
         (Some (PrefixSeq ["drugbank"])) force w.
Proof. split; reflexivity. Qed.

(** ** Credentials *)

Ltac count_norm :=
  unfold transfers, count_events; trace_norm;
  rewrite ?List.filter_app, ?length_app;
  cbn [List.filter List.length is_Transfer is_GetVersion is_Ensure]; try lia.

(** C4, as stated, fails: with no version given and bioversions not
    installed, a call without any credential raises the [ImportError] of
    the version stage, not a missing-configuration error. *)
Lemma missing_credential_counterexample :
  let out := download_drugbank Sample.bare None None None None false
               Sample.empty_world in
  credential Sample.bare "username" None = None
  /\ credential Sample.bare "password" None = None
  /\ out.1 = Raise (ImportError missing_bioversions_message)
  /\ (forall module key, out.1 <> Raise (ConfigError module key)).
Proof. vm_compute. repeat split; intros; discriminate. Qed.

(** C4, amended.  Once the version is resolved (given, or looked up with
    success), the credentials handed to [ensure] and used by the transfer
    are the explicit arguments where they are given and the values
    configured under "drugbank"/"username" and "drugbank"/"password"
    otherwise; and when one of them is available from neither source the
    call raises the missing-configuration error of that key (the username
    first) without calling [ensure], transferring anything or touching
    the cache.  When no version is given the version lookup comes before
    the credentials. *)
Theorem credential_precedence env username password version prefix force w v :
  resolved_version env version = Some v ->
  let out := download_drugbank env username password version prefix force w in
  exists evs,
    trace out.2 = trace w ++ evs
    /\ (forall parts url name b s a f,
          Ensure parts url name b s a f ∈ evs ->
          (forall u, username = Some u -> a.1 = Some u)
          /\ (forall p, password = Some p -> a.2 = Some p)
          /\ (username = None -> a.1 = config env "drugbank" "username")
          /\ (password = None -> a.2 = config env "drugbank" "password"))
    /\ (forall url a dest,
          Transfer url a dest ∈ evs ->
          (forall u, username = Some u -> a.1 = Some u)
          /\ (forall p, password = Some p -> a.2 = Some p)
          /\ (username = None -> a.1 = config env "drugbank" "username")
          /\ (password = None -> a.2 = config env "drugbank" "password"))
    /\ (forall u p,
          credential env "username" username = Some u ->
          credential env "password" password = Some p ->
          Ensure (prefix_segments prefix ++ [v]) (release_url v)
            "full database.xml.zip" "requests" true (Some u, Some p) force ∈ evs)
    /\ (credential env "username" username = None ->
          out.1 = Raise (ConfigError "drugbank" "username")
          /\ Forall (fun ev => is_Ensure ev = false /\ is_Transfer ev = false) evs
          /\ fs out.2 = fs w)
    /\ (forall u,
          credential env "username" username = Some u ->
          credential env "password" password = None ->
          out.1 = Raise (ConfigError "drugbank" "password")
          /\ Forall (fun ev => is_Ensure ev = false /\ is_Transfer ev = false) evs
          /\ fs out.2 = fs w)
    /\ (version = None -> exists rest, evs = GetVersion "drugbank" :: rest).
Proof.
  intros Hv out.
  pose proof (download_drugbank_run env username password version prefix force w)
    as Hrun. fold out in Hrun.
  destruct (Run_trace _ _ _ _ _ _ _ _ Hrun) as (evs & Htr & Hall & Hcalled).
  exists evs. split; [done|].
  assert (Hauth : forall a u p,
    credential env "username" username = Some u ->
    credential env "password" password = Some p ->
    a = (Some u, Some p) ->
    (forall u, username = Some u -> a.1 = Some u)
    /\ (forall p, password = Some p -> a.2 = Some p)
    /\ (username = None -> a.1 = config env "drugbank" "username")
    /\ (password = None -> a.2 = config env "drugbank" "password")).
  { intros a u p Hu Hp ->. cbn.
    split_and!; intros; subst; cbn in *; congruence. }
  rewrite Forall_forall in Hall.
  split; [|split; [|split; [intros u p; by apply Hcalled|]]].
  - intros * Hev. apply Hall in Hev as (v' & u & p & _ & Hu & Hp & _ & _ & _ & _ & _ & Ha & _).
    by eapply Hauth.
  - intros * Hev. apply Hall in Hev as (v' & u & p & _ & Hu & Hp & _ & Ha & _).
    by eapply Hauth.
  - assert (Hnone : forall ev, ev ∈ evs ->
      (credential env "username" username = None \/
       credential env "password" password = None) ->
      is_Ensure ev = false /\ is_Transfer ev = false).
    { intros [] Hev Hmiss; try done; apply Hall in Hev.
      - destruct Hev as (? & ? & ? & _ & ? & ? & _). destruct Hmiss; congruence.
      - destruct Hev as (? & ? & ? & _ & ? & ? & _). destruct Hmiss; congruence. }
    unfold out in *. clear out.
    destruct Hrun as [Hn Hb|e Hn Hb|v' Hv' Hu Hc|v' u Hv' Hu Hp Hc|v' u p e w1 Hv' Hu Hp He
      |v' u p w1 f Hv' Hu Hp He Hf Hsz|v' u p w1 f Hv' Hu Hp He Hf Hsz].
    all: try (subst; cbn in Hv; rewrite Hb in Hv; discriminate).
    all: try (inversion He; subst; clear He).
    all: split_and!.
    all: try (intros; congruence).
    all: try (intros; subst; cbn in *; congruence).
    all: try (intros Hmiss; split_and!;
              [done
              |apply Forall_forall; intros; apply Hnone; eauto
              |unfold before_ensure, after_version; by destruct version]).
    all: try (intros u0 Hu0 Hmiss; split_and!;
              [done
              |apply Forall_forall; intros; apply Hnone; eauto
              |unfold before_ensure, after_version; by destruct version]).
    all: intros ->; trace_norm; rewrite <- ?app_assoc in Htr; cbn [app] in Htr;
      apply app_inv_head in Htr; subst evs; eauto.
Qed.


Lemma credential_precedence_witness :
  (download_drugbank Sample.anonymous None None None None false
     Sample.empty_world).1
  = Raise (ConfigError "drugbank" "username").
Proof.
  destruct (credential_precedence Sample.anonymous None None None None false
              Sample.empty_world "5.1.9" eq_refl)
    as (evs & _ & _ & _ & _ & H & _).
  exact (proj1 (H eq_refl)).
Defined.

(** ** The cache invariant *)

Lemma fs_before_ensure username password version w :
  fs (before_ensure username password version w) = fs w.
Proof. unfold before_ensure, after_version. by destruct version. Qed.

Lemma fs_after_version version w : fs (after_version version w) = fs w.
Proof. unfold after_version. by destruct version. Qed.

(** C2, as stated, fails: an undersized file that is already in the cache
    survives a call that stops at the credentials. *)
Lemma stale_artifact_counterexample :
  let w := Sample.cached Sample.landing_page in
  let out := download_drugbank Sample.anonymous None None (Some "5.1.9") None
               false w in
  out.1 = Raise (ConfigError "drugbank" "username")
  /\ fs out.2 !! cache_path None "5.1.9" = Some Sample.landing_page
  /\ (st_size Sample.landing_page < 5 * 1024 * 1024)%Z
  /\ ~ path_ok out.2 (cache_path None "5.1.9").
Proof.
  assert (H : fs (download_drugbank Sample.anonymous None None (Some "5.1.9")
                    None false (Sample.cached Sample.landing_page)).2
              !! cache_path None "5.1.9" = Some Sample.landing_page)
    by (vm_compute; reflexivity).
  cbv zeta. split_and!.
  - vm_compute. reflexivity.
  - exact H.
  - reflexivity.
  - unfold path_ok. rewrite H. vm_compute. intros Hle. by apply Hle.
Qed.

(** C2, amended.  Whatever way a call of [download_drugbank] ends, a cache
    path that was absent or held an artifact of at least 5 MiB before the
    call is so after it; and after a call that returns normally or raises
    the unapproved-account error the cache path of the (prefix, version) is
    absent or holds an artifact of at least 5 MiB whatever was there
    before: when validation fails the file is gone once the error is
    raised. *)
Theorem cache_invariant env username password version prefix force w :
  let out := download_drugbank env username password version prefix force w in
  (forall p, path_ok w p -> path_ok out.2 p)
  /\ (forall v,
        resolved_version env version = Some v ->
        (exists path, out.1 = Ok path) \/
        out.1 = Raise (RuntimeError (unapproved_message v)) ->
        path_ok out.2 (cache_path prefix v))
  /\ (forall v,
        resolved_version env version = Some v ->
        out.1 = Raise (RuntimeError (unapproved_message v)) ->
        fs out.2 !! cache_path prefix v = None).
Proof.
  intros out.
  pose proof (download_drugbank_run env username password version prefix force w)
    as Hrun. fold out in Hrun. clearbody out.
  destruct Hrun as [Hn Hb|e Hn Hb|v' Hv' Hu Hc|v' u Hv' Hu Hp Hc|v' u p e w1 Hv' Hu Hp He
    |v' u p w1 f Hv' Hu Hp He Hf Hsz|v' u p w1 f Hv' Hu Hp He Hf Hsz].
  all: try (inversion He; subst; clear He).
  all: unfold path_ok; cbn [fst snd fs log set_fs] in *;
       rewrite ?fs_before_ensure, ?fs_after_version in *.
  all: split_and!.
  all: try (intros v0 Hv0 Hout; simplify_eq).
  all: try (destruct Hout as [[? ?]|?]; simplify_eq).
  all: try done.
  all: try (cbn in Hv0; rewrite Hb in Hv0; discriminate).
  all: rewrite ?cache_path_segments in *.
  all: rewrite ?lookup_delete_eq; try done.
  all: try (rewrite Hf; done).
  all: intros p0 Hp0;
       destruct (decide (p0 = cache_path prefix v')) as [->|Hne];
       [rewrite ?lookup_delete_eq, ?lookup_insert_eq, ?Hf; try done
       |rewrite ?lookup_delete_ne, ?lookup_insert_ne by done; done].
  all: rewrite lookup_insert_eq in Hf; by simplify_eq.
Qed.

Lemma cache_invariant_witness :
  fs (download_drugbank Sample.unapproved None None None None false
        (Sample.cached Sample.landing_page)).2
  !! cache_path None "5.1.9" = None.
Proof.
  apply (proj2 (proj2 (cache_invariant Sample.unapproved None None None None
                         false (Sample.cached Sample.landing_page)))).
  - reflexivity.
  - vm_compute. reflexivity.
Defined.


(** ** Caching *)

Lemma transfers_before_ensure username password version w :
  transfers (before_ensure username password version w) = transfers w.
Proof. destruct version; count_norm. Qed.

(** C7, as stated, fails: when the account is not approved, the first call
    transfers the landing page, deletes it and raises, and the second call
    with the same arguments transfers again. *)
Lemma repeated_fetch_counterexample :
  let call := download_drugbank Sample.unapproved None None None None false in
  let first := call Sample.empty_world in
  let second := call first.2 in
  transfers Sample.empty_world = 0%nat
  /\ first.1 = Raise (RuntimeError (unapproved_message "5.1.9"))
  /\ transfers first.2 = 1%nat
  /\ second.1 = Raise (RuntimeError (unapproved_message "5.1.9"))
  /\ transfers second.2 = 2%nat.
Proof. vm_compute. repeat split. Qed.

(** C7, amended.  When a call with [force=False] returns normally, a second
    call with the same arguments returns the same path without any
    transfer and leaves the cache as it is; the two calls together make
    exactly one transfer when the file was absent before the first call and
    none when it was already cached.  A call with [force=True] whose
    version and credentials are resolved makes exactly one transfer,
    whatever the cache holds. *)
Theorem cached_fetch_once env username password version prefix :
  (forall w path w1,
     download_drugbank env username password version prefix false w = (Ok path, w1) ->
     let second := download_drugbank env username password version prefix false w1 in
     second.1 = Ok path
     /\ transfers second.2 = transfers w1
     /\ fs second.2 = fs w1
     /\ (fs w !! path = None -> transfers second.2 = (transfers w + 1)%nat)
     /\ (is_Some (fs w !! path) -> transfers second.2 = transfers w))
  /\ (forall v u p w,
        resolved_version env version = Some v ->
        credential env "username" username = Some u ->
        credential env "password" password = Some p ->
        transfers (download_drugbank env username password version prefix true w).2
        = (transfers w + 1)%nat).
Proof.
  split; [intros w path w1|intros v0 u0 p0 w' Hv0 Hu0 Hp0; revert Hv0 Hu0 Hp0].
  2: { intros Hv0 Hu0 Hp0.
    pose proof (download_drugbank_run env username password version prefix true w')
      as Hrun'.
    rewrite <- (transfers_before_ensure username password version w').
    destruct Hrun' as [Hn Hb|e Hn Hb|v' Hv' Hu' Hc|v' u' Hv' Hu' Hp' Hc|v' u' p' e w2 Hv' Hu' Hp' He'
      |v' u' p' w2 f' Hv' Hu' Hp' He' Hf' Hsz'|v' u' p' w2 f' Hv' Hu' Hp' He' Hf' Hsz'].
    all: try (subst; cbn in *; congruence).
    all: try (subst; cbn in Hv0; rewrite Hb in Hv0; discriminate).
    all: inversion He'; subst; try discriminate; cbn [snd]; count_norm. }
  intros Hfirst second.
  pose proof (download_drugbank_run env username password version prefix false w)
    as Hrun. rewrite Hfirst in Hrun.
  inversion Hrun as [| | | | |v u p w1' f Hv Hu Hp He Hf Hsz|]; subst.
  assert (Hsecond : second =
    (Ok (cache_path prefix v),
     log (Ensure (prefix_segments prefix ++ [v]) (release_url v)
            "full database.xml.zip" "requests" true (Some u, Some p) false)
       (before_ensure username password version w1))).
  { unfold second. rewrite download_drugbank_stages. unfold bind at 1.
    rewrite (fetch_resolved env _ _ _ _ _ _ _ _ _ Hv Hu Hp). unfold bind at 1.
    rewrite (ensure_hit env _ _ _ _ _ f).
    - cbn [ret fst snd]. rewrite cache_path_segments.
      apply (validate_big _ _ _ f); [|done].
      cbn [fs log]. by rewrite fs_before_ensure.
    - by rewrite fs_before_ensure, cache_path_segments. }
  assert (Htr2 : transfers second.2 = transfers w1).
  { rewrite Hsecond. cbn [snd]. rewrite <- (transfers_before_ensure username password version w1).
    count_norm. }
  split_and!.
  - by rewrite Hsecond.
  - exact Htr2.
  - rewrite Hsecond. cbn [snd fs log]. apply fs_before_ensure.
  - intros Habs. rewrite Htr2.
    rewrite <- (transfers_before_ensure username password version w).
    inversion He; subst.
    + rewrite fs_before_ensure, cache_path_segments in *. congruence.
    + count_norm.
  - intros [f0 Hpre]. rewrite Htr2.
    rewrite <- (transfers_before_ensure username password version w).
    inversion He as [| f1 [?|Hm] |]; subst; try discriminate.
    + count_norm.
    + rewrite fs_before_ensure, cache_path_segments in *. congruence.
Qed.

Lemma cached_fetch_once_witness :
  let call := download_drugbank Sample.approved None None None None false in
  (call (call Sample.empty_world).2).1
  = Ok ["drugbank"; "5.1.9"; "full database.xml.zip"]
  /\ transfers (call (call Sample.empty_world).2).2 = 1%nat.
Proof.
  destruct (proj1 (cached_fetch_once Sample.approved None None None None)
              Sample.empty_world ["drugbank"; "5.1.9"; "full database.xml.zip"]
              (download_drugbank Sample.approved None None None None false
                 Sample.empty_world).2)
    as (Hpath & _ & _ & Hone & _).
  - vm_compute. reflexivity.
  - split; [exact Hpath|]. apply Hone. vm_compute. reflexivity.
Defined.

(** [download_drugbank] opens and closes nothing. *)
Lemma Run_handles env username password version prefix force w out :
  Run env username password version prefix force w out ->
  handles out.2 = handles w.
Proof.
  destruct 1; try (match goal with H : Ensured _ _ _ _ _ _ _ _ |- _ =>
    inversion H; subst; clear H end);
    unfold before_ensure, after_version; by destruct version.
Qed.

(** ** Scoped access to the archive *)

(** C6.  A [with open_drugbank(...) as file] block either is not entered,
    and then the call raises and no handle is left open that was not open
    before; or it is entered with the archive and the member stream open,
    and then, whether the block returns a value or raises, the statement
    ends the same way and both the member stream and the archive are
    closed, the stream first. *)
Theorem open_drugbank_closes env (A : Type) username password version prefix
    (block : Handle -> M A) w :
  let out := open_drugbank env username password version prefix block w in
  match open_drugbank_enter env username password version prefix w with
  | (Raise e, w1) =>
      out = (Raise e, w1) /\ (forall h, is_closed w h -> is_closed w1 h)
  | (Ok (zip_file, file), w1) =>
      is_open w1 zip_file /\ is_open w1 file /\
      match block file w1 with
      | (result, w2) =>
          out.1 = result
          /\ is_closed out.2 zip_file /\ is_closed out.2 file
          /\ trace out.2 = trace w2 ++ [Closed file; Closed zip_file]
      end
  end.
Proof.
  intros out. unfold out, open_drugbank, open_drugbank_enter, bind, with_.
  pose proof (download_drugbank_run env username password version prefix false w)
    as Hrun.
  apply Run_handles in Hrun.
  destruct (download_drugbank _ _ _ _ _ _ w) as [[path|e] w0]; cbn [snd] in Hrun;
    [|split; [reflexivity|unfold is_closed; by rewrite Hrun]].
  unfold zipfile.ZipFile.
  destruct (fs w0 !! path) as [f|];
    [destruct (zip_view f) as [e|members]|];
    try (split; [reflexivity|unfold is_closed; cbn; by rewrite Hrun]).
  unfold zipfile.acquire, zipfile.open.
  cbn [handles log set_handles]. rewrite lookup_insert_eq.
  destruct (zipfile.getinfo "full database.xml" members) as [content|].
  - unfold zipfile.acquire. cbn [handles log set_handles next_handle].
    unfold is_open, is_closed. cbn [handles log set_handles].
    split; [rewrite lookup_insert_ne by lia; rewrite lookup_insert_eq; eauto|].
    split; [rewrite lookup_insert_eq; eauto|].
    destruct (block _ _) as [result w2]. cbn [fst snd].
    unfold zipfile.close. cbn [handles log set_handles trace].
    split_and!.
    + reflexivity.
    + apply lookup_delete_eq.
    + rewrite lookup_delete_ne by lia. apply lookup_delete_eq.
    + by rewrite <- app_assoc.
  - unfold lib_raise. split; [reflexivity|].
    intros h Hh. unfold is_closed, zipfile.close in *.
    cbn [handles log set_handles]. rewrite Hrun.
    destruct (decide (h = next_handle w0)) as [->|Hne].
    + apply lookup_delete_eq.
    + by rewrite lookup_delete_ne, lookup_insert_ne.
Qed.

(** A block that raises: the error comes out, and both handles are closed
    in the order stream, archive. *)
Example raising_block_closes :
  let out := open_drugbank Sample.approved None None None None
               (fun _ => raise (ValueError "boom"))
               (Sample.cached Sample.archive) in
  out.1 = @Raise unit (ValueError "boom")
  /\ handles out.2 = ∅
  /\ trace out.2 =
     [GetVersion "drugbank"; GetConfig "drugbank" "username" None;
      GetConfig "drugbank" "password" None;
      Ensure ["drugbank"; "5.1.9"]
        "https://go.drugbank.com/releases/5-1-9/downloads/all-full-database"
        "full database.xml.zip" "requests" true (Some "alice", Some "secret")
        false;
      Opened 0; Opened 1; Closed 1; Closed 0].
Proof. vm_compute. repeat split. Qed.

(** ** The four operations *)

(** C8, as stated, fails: [force] is a parameter of [download_drugbank]
    only; passing it to one of the other three operations is a
    [TypeError], while [download_drugbank] takes it. *)
Lemma shared_parameters_counterexample :
  parameters Op_open_drugbank = ["username"; "password"; "version"; "prefix"]
  /\ parameters Op_download_drugbank
     = ["username"; "password"; "version"; "prefix"; "force"]
  /\ (call_open_drugbank Sample.approved Sample.force_only etree.parse
        Sample.empty_world).1
     = Raise (TypeError "open_drugbank() got an unexpected keyword argument 'force'")
  /\ (call_parse_drugbank Sample.approved Sample.force_only Sample.empty_world).1
     = Raise (TypeError "parse_drugbank() got an unexpected keyword argument 'force'")
  /\ (call_get_drugbank_root Sample.approved Sample.force_only
        Sample.empty_world).1
     = Raise (TypeError
                "get_drugbank_root() got an unexpected keyword argument 'force'")
  /\ (call_download_drugbank Sample.approved Sample.force_only
        Sample.empty_world).1
     = Ok ["drugbank"; "5.1.9"; "full database.xml.zip"].
Proof. vm_compute. repeat split. Qed.

(** C8, amended.  All four operations take the optional parameters
    username, password, version and prefix; [force] is taken by
    [download_drugbank] alone.  Each later operation is built on the
    earlier one and forwards these four: [get_drugbank_root] is
    [parse_drugbank] followed by [getroot]; [parse_drugbank] is the
    [open_drugbank] block that parses the stream; and [open_drugbank]
    starts with [download_drugbank] on the same arguments and
    [force=False], raising what it raises and otherwise opening the path
    it returns. *)
Theorem operations_layered env username password version prefix w :
  (forall op k,
     k ∈ ["username"; "password"; "version"; "prefix"] -> k ∈ parameters op)
  /\ (forall op, "force" ∈ parameters op <-> op = Op_download_drugbank)
  /\ get_drugbank_root env username password version prefix w =
     match parse_drugbank env username password version prefix w with
     | (Ok tree, w1) => (Ok (etree.getroot tree), w1)
     | (Raise e, w1) => (Raise e, w1)
     end
  /\ parse_drugbank env username password version prefix w =
     open_drugbank env username password version prefix etree.parse w
  /\ (forall (A : Type) (block : Handle -> M A),
        open_drugbank env username password version prefix block w =
        match download_drugbank env username password version prefix false w with
        | (Ok path, w1) =>
            with_ (zipfile.ZipFile path) zipfile.close (fun zip_file =>
              with_ (zipfile.open zip_file "full database.xml") zipfile.close
                block) w1
        | (Raise e, w1) => (Raise e, w1)
        end).
Proof.
  split_and!.
  - intros [] k Hk; cbn;
      repeat (apply elem_of_cons in Hk as [->|Hk]; [by repeat constructor|]);
      by apply elem_of_nil in Hk.
  - intros op. split.
    + destruct op; cbn; intros H; try reflexivity; exfalso;
        repeat (apply elem_of_cons in H as [H|H]; [discriminate|]);
        by apply elem_of_nil in H.
    + intros ->. cbn. by repeat constructor.
  - unfold get_drugbank_root, bind, ret.
    by destruct (parse_drugbank _ _ _ _ _ w) as [[?|?] ?].
  - unfold parse_drugbank, bind, ret.
    by destruct (open_drugbank _ _ _ _ _ _ w) as [[?|?] ?].
  - intros A block. unfold open_drugbank, bind.
    by destruct (download_drugbank _ _ _ _ _ _ w) as [[?|?] ?].
Qed.

(** ** Errors of the delegated libraries *)

Ltac in_list H :=
  repeat (apply elem_of_cons in H as [H|H]; [simplify_eq|]);
  try (by apply elem_of_nil in H).

(** In a run of [download_drugbank], an error a library raises is the
    outcome of the call, and the call raises nothing else but its own two
    errors. *)
Lemma Run_raised env username password version prefix force w out evs :
  Run env username password version prefix force w out ->
  trace out.2 = trace w ++ evs ->
  (forall e, Raised e ∈ evs -> out.1 = Raise e)
  /\ (forall e, out.1 = Raise e ->
        e = ImportError missing_bioversions_message
        \/ (exists v, e = RuntimeError (unapproved_message v))
        \/ Raised e ∈ evs).
Proof.
  intros Hrun Htr.
  destruct Hrun as [Hn Hb|e0 Hn Hb|v' Hv' Hu Hc|v' u Hv' Hu Hp Hc|v' u p e0 w1 Hv' Hu Hp He
    |v' u p w1 f Hv' Hu Hp He Hf Hsz|v' u p w1 f Hv' Hu Hp He Hf Hsz].
  all: try (inversion He; subst; clear He).
  all: subst; try (destruct version as [v0|]); try discriminate.
  all: trace_norm; rewrite <- ?app_assoc in Htr; cbn [app] in Htr.
  all: first [apply app_inv_head in Htr
             |rewrite <- (app_nil_r (trace w)) in Htr at 1;
              apply app_inv_head in Htr]; subst evs.
  all: split; [intros e' Hin; in_list Hin; done|intros e' Hout; simplify_eq; eauto].
  all: right; right; by repeat constructor.
Qed.

(** [open_drugbank] is its [__enter__], the block, and the two closes. *)
Lemma open_drugbank_via_enter env (A : Type) username password version prefix
    (block : Handle -> M A) w :
  open_drugbank env username password version prefix block w =
  match open_drugbank_enter env username password version prefix w with
  | (Raise e, w1) => (Raise e, w1)
  | (Ok (zip_file, file), w1) =>
      match block file w1 with
      | (result, w2) => (result, zipfile.close zip_file (zipfile.close file w2))
      end
  end.
Proof.
  unfold open_drugbank, open_drugbank_enter, bind, with_.
  destruct (download_drugbank _ _ _ _ _ _ w) as [[path|e] w0]; [|reflexivity].
  destruct (zipfile.ZipFile path w0) as [[z|e] w1]; [|reflexivity].
  destruct (zipfile.open z _ w1) as [[f|e] w2]; [|reflexivity].
  by destruct (block f w2).
Qed.

Lemma parse_cases file w :
  (exists tree, etree.parse file w = (Ok tree, w))
  \/ (exists e, etree.parse file w = (Raise e, log (Raised e) w)).
Proof.
  unfold etree.parse, ret, lib_raise.
  destruct (handles w !! file) as [[members|[e|tree]]|]; eauto.
Qed.

(** The acquisition phase: a library error is its outcome, and it raises
    nothing else but the two errors of [download_drugbank]. *)
Lemma enter_raised env username password version prefix w :
  let en := open_drugbank_enter env username password version prefix w in
  exists evs,
    trace en.2 = trace w ++ evs
    /\ (forall e, Raised e ∈ evs -> en.1 = Raise e)
    /\ (forall e, en.1 = Raise e ->
          e = ImportError missing_bioversions_message
          \/ (exists v, e = RuntimeError (unapproved_message v))
          \/ Raised e ∈ evs).
Proof.
  intros en. unfold en, open_drugbank_enter, bind.
  pose proof (download_drugbank_run env username password version prefix false w)
    as Hrun.
  destruct (Run_trace _ _ _ _ _ _ _ _ Hrun) as (evs0 & Htr & _ & _).
  destruct (Run_raised _ _ _ _ _ _ _ _ _ Hrun Htr) as [Hin Hout].
  destruct (download_drugbank _ _ _ _ _ _ w) as [[path|e0] w0];
    cbn [fst snd] in *.
  2: { exists evs0. split_and!; [done| |].
       - intros e He. apply Hin in He. by simplify_eq.
       - intros e He. apply Hout. by simplify_eq. }
  assert (Hnone : forall e, Raised e ∈ evs0 -> False).
  { intros e He. apply Hin in He. discriminate. }
  unfold zipfile.ZipFile, zipfile.open, zipfile.acquire, lib_raise.
  destruct (fs w0 !! path) as [f|]; [destruct (zip_view f) as [e1|members]|].
  all: cbn [handles log set_handles]; rewrite ?lookup_insert_eq.
  all: try destruct (zipfile.getinfo "full database.xml" members) as [content|].
  all: unfold zipfile.close; cbn [fst snd trace log set_handles]; rewrite Htr.
  all: rewrite <- ?app_assoc; cbn [app].
  all: eexists; split; [reflexivity|].
  all: split; [intros e Hev; apply elem_of_app in Hev as [Hev|Hev];
               [by apply Hnone in Hev|in_list Hev; done]
              |intros e He; simplify_eq; right; right;
               apply elem_of_app; right; by repeat constructor].
Qed.

(** The same for [parse_drugbank], whose block is the parser. *)
Lemma parse_raised env username password version prefix w :
  let out := parse_drugbank env username password version prefix w in
  exists evs,
    trace out.2 = trace w ++ evs
    /\ (forall e, Raised e ∈ evs -> out.1 = Raise e)
    /\ (forall e, out.1 = Raise e ->
          e = ImportError missing_bioversions_message
          \/ (exists v, e = RuntimeError (unapproved_message v))
          \/ Raised e ∈ evs).
Proof.
  intros out.
  assert (Hout : out =
    open_drugbank env username password version prefix etree.parse w).
  { unfold out, parse_drugbank, bind, ret.
    by destruct (open_drugbank _ _ _ _ _ _ w) as [[?|?] ?]. }
  rewrite Hout, open_drugbank_via_enter. clear out Hout.
  destruct (enter_raised env username password version prefix w)
    as (evs0 & Htr & Hin & Hown).
  destruct (open_drugbank_enter _ _ _ _ _ w) as [[[z f]|e0] w1];
    cbn [fst snd] in *.
  2: { exists evs0. split_and!; [done| |].
       - intros e He. apply Hin in He. by simplify_eq.
       - intros e He. apply Hown. by simplify_eq. }
  assert (Hnone : forall e, Raised e ∈ evs0 -> False).
  { intros e He. apply Hin in He. discriminate. }
  destruct (parse_cases f w1) as [[tree ->]|[e1 ->]];
    unfold zipfile.close; cbn [fst snd trace log set_handles]; rewrite Htr;
    rewrite <- ?app_assoc; cbn [app];
    (eexists; split; [reflexivity|]);
    (split; [intros e Hev; apply elem_of_app in Hev as [Hev|Hev];
             [by apply Hnone in Hev|in_list Hev; done]
            |intros e He; simplify_eq; right; right;
             apply elem_of_app; right; by repeat constructor]).
Qed.

(** C9.  A lower-level (I/O, HTTP, zip, XML) error that a delegated library
    raises during [download_drugbank], [parse_drugbank] or
    [get_drugbank_root] is the outcome of the call, unchanged; so is one
    raised while [open_drugbank] acquires the archive and the stream, and
    one raised inside its block.  Conversely these operations raise
    nothing but what a library raised, and the two errors
    [download_drugbank] raises itself. *)
Theorem library_errors_propagate env username password version prefix force w e :
  lower_level e = true ->
  let down := download_drugbank env username password version prefix force w in
  let parsed := parse_drugbank env username password version prefix w in
  let rooted := get_drugbank_root env username password version prefix w in
  let own (e' : Exception) :=
    e' = ImportError missing_bioversions_message
    \/ exists v, e' = RuntimeError (unapproved_message v) in
  (forall evs, trace down.2 = trace w ++ evs ->
     (Raised e ∈ evs -> down.1 = Raise e)
     /\ (forall e', down.1 = Raise e' -> own e' \/ Raised e' ∈ evs))
  /\ (forall evs, trace parsed.2 = trace w ++ evs ->
        (Raised e ∈ evs -> parsed.1 = Raise e)
        /\ (forall e', parsed.1 = Raise e' -> own e' \/ Raised e' ∈ evs))
  /\ (forall evs, trace rooted.2 = trace w ++ evs ->
        (Raised e ∈ evs -> rooted.1 = Raise e)
        /\ (forall e', rooted.1 = Raise e' -> own e' \/ Raised e' ∈ evs))
  /\ (forall (A : Type) (block : Handle -> M A),
        let opened := open_drugbank env username password version prefix block w in
        match open_drugbank_enter env username password version prefix w with
        | (Raise e', w1) =>
            opened = (Raise e', w1)
            /\ (forall evs, trace w1 = trace w ++ evs -> Raised e ∈ evs -> e' = e)
        | (Ok (zip_file, file), w1) =>
            forall w2, block file w1 = (Raise e, w2) -> opened.1 = Raise e
        end).
Proof.
  intros _ down parsed rooted own.
  assert (Hparsed : forall evs, trace parsed.2 = trace w ++ evs ->
        (Raised e ∈ evs -> parsed.1 = Raise e)
        /\ (forall e', parsed.1 = Raise e' -> own e' \/ Raised e' ∈ evs)).
  { intros evs Htr.
    destruct (parse_raised env username password version prefix w)
      as (evs' & Htr' & Hin & Hown).
    fold parsed in Htr', Hin, Hown. rewrite Htr' in Htr.
    apply app_inv_head in Htr. subst evs'. split; [apply Hin|].
    intros e' He'. destruct (Hown e' He') as [?|[?|?]]; unfold own; eauto. }
  split_and!.
  - intros evs Htr.
    pose proof (download_drugbank_run env username password version prefix force w)
      as Hrun.
    destruct (Run_raised _ _ _ _ _ _ _ _ _ Hrun Htr) as [Hin Hown].
    split; [apply Hin|].
    intros e' He'. destruct (Hown e' He') as [?|[?|?]]; unfold own; eauto.
  - exact Hparsed.
  - assert (Hroot : rooted.2 = parsed.2 /\
      forall e', rooted.1 = Raise e' <-> parsed.1 = Raise e').
    { unfold rooted, get_drugbank_root, bind, ret. fold parsed.
      destruct parsed as [[tree|e0] w1]; cbn; split; try done.
      split; intros; by simplify_eq. }
    destruct Hroot as [Hw Hr]. intros evs Htr. rewrite Hw in Htr.
    destruct (Hparsed evs Htr) as [Hin Hown]. split.
    + intros He. by apply Hr, Hin.
    + intros e' He'. by apply Hown, Hr.
  - intros A block opened. unfold opened. rewrite open_drugbank_via_enter.
    destruct (enter_raised env username password version prefix w)
      as (evs0 & Htr & Hin & _).
    destruct (open_drugbank_enter _ _ _ _ _ w) as [[[z f]|e0] w1];
      cbn [fst snd] in *.
    + intros w2 ->. reflexivity.
    + split; [reflexivity|]. intros evs Htr' He. rewrite Htr in Htr'.
      apply app_inv_head in Htr'. subst evs0. apply Hin in He. by simplify_eq.
Qed.

Lemma library_errors_propagate_witness :
  (download_drugbank Sample.unavailable None None None None false
     Sample.empty_world).1
  = Raise (HTTPError "503 Service Unavailable").
Proof.
  refine (proj1 (proj1 (library_errors_propagate Sample.unavailable
    None None None None false Sample.empty_world
    (HTTPError "503 Service Unavailable") eq_refl)
    [GetVersion "drugbank"; GetConfig "drugbank" "username" None;
     GetConfig "drugbank" "password" None;
     Ensure ["drugbank"; "5.1.9"]
       "https://go.drugbank.com/releases/5-1-9/downloads/all-full-database"
       "full database.xml.zip" "requests" true (Some "alice", Some "secret")
       false;
     Transfer
       "https://go.drugbank.com/releases/5-1-9/downloads/all-full-database"
       (Some "alice", Some "secret")
       ["drugbank"; "5.1.9"; "full database.xml.zip"];
     Raised (HTTPError "503 Service Unavailable")] _) _).
  - vm_compute. reflexivity.
  - by repeat constructor.
Defined.

(** ** End to end *)

(** With a valid archive already in the cache, [get_drugbank_root] hands
    out the root of the document, transfers nothing and leaves no handle
    open. *)
Example cached_root :
  let out := get_drugbank_root Sample.approved None None None None
               (Sample.cached Sample.archive) in
  (tag <$> match out.1 with Ok r => Some r | Raise _ => None end) = Some "drugbank"
  /\ transfers out.2 = 0%nat
  /\ handles out.2 = ∅.
Proof. vm_compute. repeat split. Qed.

(** * Further properties of the four operations *)

(** ** [download_drugbank] on a file that is already cached *)

Lemma download_cached env username password version prefix w v u p f :
  resolved_version env version = Some v ->
  credential env "username" username = Some u ->
  credential env "password" password = Some p ->
  fs w !! cache_path prefix v = Some f ->
  download_drugbank env username password version prefix false w =
  validate v (cache_path prefix v)
    (log (ensure_event prefix v u p false)
       (before_ensure username password version w)).
Proof.
  intros Hv Hu Hp Hf.
  rewrite download_drugbank_stages. unfold bind at 1.
  rewrite (fetch_resolved env _ _ _ _ _ _ _ _ _ Hv Hu Hp). unfold bind at 1.
  rewrite (ensure_hit env _ _ _ _ _ f).
  - cbn [ret fst snd]. by rewrite cache_path_segments.
  - by rewrite fs_before_ensure, cache_path_segments.
Qed.

Lemma resolved_version_env env env' version :
  bioversions env' = bioversions env ->
  resolved_version env' version = resolved_version env version.
Proof. intros H. unfold resolved_version. by rewrite H. Qed.

Lemma credential_env env env' key explicit :
  config env' = config env ->
  credential env' key explicit = credential env key explicit.
Proof. intros H. unfold credential. by rewrite H. Qed.

(** X1.  A valid artifact in the cache is served without the server: with
    [force=False], version and credentials resolved, and a file of at least
    5 MiB at the cache path, the call returns that path, transfers nothing,
    leaves cache and handles as they are, and does the same whatever the
    server would answer. *)
Theorem cache_hit_offline env username password version prefix w v u p f :
  resolved_version env version = Some v ->
  credential env "username" username = Some u ->
  credential env "password" password = Some p ->
  fs w !! cache_path prefix v = Some f ->
  (5 * 1024 * 1024 <= st_size f)%Z ->
  let out := download_drugbank env username password version prefix false w in
  out.1 = Ok (cache_path prefix v)
  /\ fs out.2 = fs w
  /\ handles out.2 = handles w
  /\ transfers out.2 = transfers w
  /\ (forall env',
        bioversions env' = bioversions env -> config env' = config env ->
        download_drugbank env' username password version prefix false w = out).
Proof.
  intros Hv Hu Hp Hf Hsz out.
  assert (Hrun : forall env', bioversions env' = bioversions env ->
    config env' = config env ->
    download_drugbank env' username password version prefix false w =
    (Ok (cache_path prefix v),
     log (ensure_event prefix v u p false)
       (before_ensure username password version w))).
  { intros env' Hb Hc.
    rewrite (download_cached env' _ _ _ _ _ v u p f); try done.
    - apply (validate_big _ _ _ f); [|done]. cbn [fs log].
      by rewrite fs_before_ensure.
    - by rewrite (resolved_version_env env).
    - by rewrite (credential_env env).
    - by rewrite (credential_env env). }
  unfold out. rewrite (Hrun env eq_refl eq_refl). cbn [fst snd].
  split_and!.
  - reflexivity.
  - cbn [fs log]. apply fs_before_ensure.
  - unfold before_ensure, after_version. by destruct version.
  - rewrite <- (transfers_before_ensure username password version w).
    unfold ensure_event. count_norm.
  - intros env' Hb Hc. by apply Hrun.
Qed.

Lemma cache_hit_offline_witness :
  (download_drugbank Sample.unavailable None None None None false
     (Sample.cached Sample.archive)).1
  = Ok ["drugbank"; "5.1.9"; "full database.xml.zip"].
Proof.
  refine (proj1 (cache_hit_offline Sample.unavailable None None None None
    (Sample.cached Sample.archive) "5.1.9" "alice" "secret" Sample.archive
    _ _ _ _ _)).
  - reflexivity.
  - reflexivity.
  - reflexivity.
  - vm_compute. reflexivity.
  - vm_compute. discriminate.
Defined.

(** X2.  The size check also applies to a file that was already in the
    cache: with [force=False], version and credentials resolved, a cached
    file below 5 MiB is deleted and the call raises the unapproved-account
    error, without any transfer. *)
Theorem stale_small_file_purged env username password version prefix w v u p f :
  resolved_version env version = Some v ->
  credential env "username" username = Some u ->
  credential env "password" password = Some p ->
  fs w !! cache_path prefix v = Some f ->
  (st_size f < 5 * 1024 * 1024)%Z ->
  let out := download_drugbank env username password version prefix false w in
  out.1 = Raise (RuntimeError (unapproved_message v))
  /\ fs out.2 = delete (cache_path prefix v) (fs w)
  /\ transfers out.2 = transfers w
  /\ last (trace out.2) = Some (Unlink (cache_path prefix v)).
Proof.
  intros Hv Hu Hp Hf Hsz out. unfold out.
  rewrite (download_cached env _ _ _ _ _ v u p f) by done.
  rewrite (validate_small _ _ _ f); [|by cbn [fs log]; rewrite fs_before_ensure|done].
  cbn [fst snd]. split_and!.
  - reflexivity.
  - cbn [fs log set_fs]. by rewrite fs_before_ensure.
  - rewrite <- (transfers_before_ensure username password version w).
    unfold ensure_event. count_norm.
  - cbn [trace log set_fs]. apply last_snoc.
Qed.

Lemma stale_small_file_purged_witness :
  fs (download_drugbank Sample.approved None None None None false
        (Sample.cached Sample.landing_page)).2
  = delete (cache_path None "5.1.9") (fs (Sample.cached Sample.landing_page)).
Proof.
  refine (proj1 (proj2 (stale_small_file_purged Sample.approved None None None
    None (Sample.cached Sample.landing_page) "5.1.9" "alice" "secret"
    Sample.landing_page _ _ _ _ _))).
  - reflexivity.
  - reflexivity.
  - reflexivity.
  - vm_compute. reflexivity.
  - reflexivity.
Defined.

(** ** [download_drugbank] when a transfer happens *)

Lemma download_transferred env username password version prefix force w v u p g :
  resolved_version env version = Some v ->
  credential env "username" username = Some u ->
  credential env "password" password = Some p ->
  force = true \/ fs w !! cache_path prefix v = None ->
  server env (release_url v) (Some u, Some p) = inr g ->
  download_drugbank env username password version prefix force w =
  validate v (cache_path prefix v)
    (set_fs (<[cache_path prefix v := g]> (fs w))
       (log (Transfer (release_url v) (Some u, Some p) (cache_path prefix v))
          (log (ensure_event prefix v u p force)
             (before_ensure username password version w)))).
Proof.
  intros Hv Hu Hp Hmiss Hs.
  rewrite download_drugbank_stages. unfold bind at 1.
  rewrite (fetch_resolved env _ _ _ _ _ _ _ _ _ Hv Hu Hp). unfold bind at 1.
  rewrite (ensure_transfer_ok env _ _ _ _ _ _ g).
  - cbn [ret fst snd fs log]. unfold release_kwargs, ensure_event. cbn [auth backend stream].
    by rewrite cache_path_segments, fs_before_ensure.
  - by rewrite fs_before_ensure, cache_path_segments.
  - exact Hs.
Qed.

(** X3.  A forced call replaces whatever the cache holds by the answer of
    the server and validates that answer: with [force=True], version and
    credentials resolved and a server that answers, exactly one transfer is
    made; an answer of at least 5 MiB ends up at the cache path, which is
    returned; a smaller answer is deleted and rejected, so that a file that
    was cached before, valid or not, is lost. *)
Theorem forced_refresh_replaces env username password version prefix w v u p g :
  resolved_version env version = Some v ->
  credential env "username" username = Some u ->
  credential env "password" password = Some p ->
  server env (release_url v) (Some u, Some p) = inr g ->
  let out := download_drugbank env username password version prefix true w in
  transfers out.2 = (transfers w + 1)%nat
  /\ ((5 * 1024 * 1024 <= st_size g)%Z ->
        out.1 = Ok (cache_path prefix v)
        /\ fs out.2 = <[cache_path prefix v := g]> (fs w))
  /\ ((st_size g < 5 * 1024 * 1024)%Z ->
        out.1 = Raise (RuntimeError (unapproved_message v))
        /\ fs out.2 = delete (cache_path prefix v) (fs w)).
Proof.
  intros Hv Hu Hp Hs out. unfold out.
  rewrite (download_transferred env _ _ _ _ _ _ v u p g) by eauto.
  set (w1 := set_fs _ _).
  assert (Hf : fs w1 !! cache_path prefix v = Some g)
    by (unfold w1; cbn [fs set_fs]; apply lookup_insert_eq).
  assert (Htr : transfers w1 = (transfers w + 1)%nat).
  { unfold w1. rewrite <- (transfers_before_ensure username password version w).
    unfold ensure_event. count_norm. }
  destruct (Z.lt_ge_cases (st_size g) threshold) as [Hlt|Hge].
  - rewrite (validate_small _ _ _ g Hf Hlt). cbn [fst snd].
    split_and!.
    + rewrite <- Htr. count_norm.
    + unfold threshold in Hlt. lia.
    + intros _. split; [reflexivity|]. unfold w1. cbn [fs log set_fs].
      apply delete_insert_eq.
  - rewrite (validate_big _ _ _ g Hf Hge). cbn [fst snd].
    split_and!.
    + exact Htr.
    + intros _. split; reflexivity.
    + unfold threshold in Hge. lia.
Qed.

Lemma forced_refresh_replaces_witness :
  fs (download_drugbank Sample.unapproved None None None None true
        (Sample.cached Sample.archive)).2
  = delete (cache_path None "5.1.9") (fs (Sample.cached Sample.archive)).
Proof.
  refine (proj2 (proj2 (proj2 (forced_refresh_replaces Sample.unapproved
    None None None None (Sample.cached Sample.archive) "5.1.9" "alice" "secret"
    Sample.landing_page _ _ _ _)) _)).
  - reflexivity.
  - reflexivity.
  - reflexivity.
  - reflexivity.
  - reflexivity.
Defined.

(** X4.  After the unapproved-account error the file is gone, so a retry
    downloads again: when a call raises that error, the next call with the
    same arguments and [force=False] makes exactly one transfer. *)
Theorem retry_after_rejection env username password version prefix force w v w1 :
  resolved_version env version = Some v ->
  download_drugbank env username password version prefix force w
  = (Raise (RuntimeError (unapproved_message v)), w1) ->
  let retry := download_drugbank env username password version prefix false w1 in
  fs w1 !! cache_path prefix v = None
  /\ transfers retry.2 = (transfers w1 + 1)%nat.
Proof.
  intros Hv Hfirst retry.
  pose proof (download_drugbank_run env username password version prefix force w)
    as Hrun. rewrite Hfirst in Hrun.
  assert (Hgone : fs w1 !! cache_path prefix v = None /\
    exists u p, credential env "username" username = Some u /\
                credential env "password" password = Some p).
  { inversion Hrun as [| e Hn Hb | | |v' u p e w1' Hv' Hu Hp He
      |v' u p w1' f Hv' Hu Hp He Hf Hsz|v' u p w1' f Hv' Hu Hp He Hf Hsz];
      subst; simplify_eq.
    - cbn in Hv. rewrite Hb in Hv. discriminate.
    - inversion He; subst. cbn [fs log set_fs].
      rewrite cache_path_segments, lookup_delete_eq. eauto.
    - cbn [fs log set_fs]. rewrite lookup_delete_eq. eauto. }
  destruct Hgone as (Hnone & u & p & Hu & Hp). split; [done|].
  pose proof (download_drugbank_run env username password version prefix false w1)
    as Hretry. fold retry in Hretry. clearbody retry.
  rewrite <- (transfers_before_ensure username password version w1).
  destruct Hretry as [Hn Hb|e Hn Hb|v' Hv' Hu' Hc|v' u' Hv' Hu' Hp' Hc|v' u' p' e w2 Hv' Hu' Hp' He
    |v' u' p' w2 f Hv' Hu' Hp' He Hf Hsz|v' u' p' w2 f Hv' Hu' Hp' He Hf Hsz].
  all: try (subst; cbn in *; congruence).
  all: try (subst; cbn in Hv; rewrite Hb in Hv; discriminate).
  all: simplify_eq; inversion He; subst; cbn [snd];
    try (rewrite fs_before_ensure, cache_path_segments in *; congruence);
    count_norm.
Qed.

Lemma retry_after_rejection_witness :
  transfers
    (download_drugbank Sample.unapproved None None None None false
       (download_drugbank Sample.unapproved None None None None false
          Sample.empty_world).2).2
  = (transfers
       (download_drugbank Sample.unapproved None None None None false
          Sample.empty_world).2 + 1)%nat.
Proof.
  refine (proj2 (retry_after_rejection Sample.unapproved None None None None
    false Sample.empty_world "5.1.9" _ _ _)).
  - reflexivity.
  - vm_compute. reflexivity.
Defined.

(** ** What [download_drugbank] leaves alone *)

(** X5.  [download_drugbank] writes to one place only: every cache path
    other than the one of its (prefix, version) holds after the call what
    it held before, however the call ends, and no handle is opened or
    closed. *)
Theorem download_frame env username password version prefix force w :
  let out := download_drugbank env username password version prefix force w in
  handles out.2 = handles w
  /\ next_handle out.2 = next_handle w
  /\ (forall path,
        (forall v, resolved_version env version = Some v ->
                   path <> cache_path prefix v) ->
        fs out.2 !! path = fs w !! path).
Proof.
  intros out.
  pose proof (download_drugbank_run env username password version prefix force w)
    as Hrun. fold out in Hrun. clearbody out.
  destruct Hrun as [Hn Hb|e Hn Hb|v' Hv' Hu Hc|v' u Hv' Hu Hp Hc|v' u p e w1 Hv' Hu Hp He
    |v' u p w1 f Hv' Hu Hp He Hf Hsz|v' u p w1 f Hv' Hu Hp He Hf Hsz].
  all: try (inversion He; subst; clear He).
  all: cbn [fst snd fs handles next_handle log set_fs];
       rewrite ?cache_path_segments.
  all: split_and!;
       try (unfold before_ensure, after_version; by destruct version).
  all: intros path Hpath; try specialize (Hpath _ Hv');
       rewrite ?lookup_delete_ne, ?lookup_insert_ne by done;
       by rewrite ?fs_before_ensure, ?fs_after_version.
Qed.

(** ** The version stage *)

(** X6.  Leaving the version out is the same as passing the version that
    bioversions reports: when the lookup answers [v], each of the four
    operations behaves as the same operation with [version=v] run right
    after the lookup. *)
Theorem looked_up_version_as_given env username password prefix force w v :
  bioversions env = Some (inr v) ->
  let w' := log (GetVersion "drugbank") w in
  download_drugbank env username password None prefix force w
  = download_drugbank env username password (Some v) prefix force w'
  /\ (forall (A : Type) (block : Handle -> M A),
        open_drugbank env username password None prefix block w
        = open_drugbank env username password (Some v) prefix block w')
  /\ parse_drugbank env username password None prefix w
     = parse_drugbank env username password (Some v) prefix w'
  /\ get_drugbank_root env username password None prefix w
     = get_drugbank_root env username password (Some v) prefix w'.
Proof.
  intros Hb w'.
  assert (Hd : forall force,
    download_drugbank env username password None prefix force w
    = download_drugbank env username password (Some v) prefix force w').
  { intros force'.
    unfold download_drugbank, bind at 1, try_except_else, import_bioversions.
    rewrite Hb. reflexivity. }
  assert (Ho : forall (A : Type) (block : Handle -> M A),
    open_drugbank env username password None prefix block w
    = open_drugbank env username password (Some v) prefix block w').
  { intros A block. unfold open_drugbank, bind at 1. rewrite Hd. reflexivity. }
  assert (Hp : parse_drugbank env username password None prefix w
     = parse_drugbank env username password (Some v) prefix w').
  { unfold parse_drugbank, bind at 1. rewrite Ho. reflexivity. }
  split_and!; [apply Hd|apply Ho|apply Hp|].
  unfold get_drugbank_root, bind at 1. rewrite Hp. reflexivity.
Qed.

Lemma looked_up_version_as_given_witness :
  download_drugbank Sample.approved None None None None false Sample.empty_world
  = download_drugbank Sample.approved None None (Some "5.1.9") None false
      (log (GetVersion "drugbank") Sample.empty_world).
Proof.
  apply (looked_up_version_as_given Sample.approved None None None false
           Sample.empty_world "5.1.9").
  reflexivity.
Defined.

(** ** Reading the archive *)

Ltac count_scope :=
  unfold transfers, count_events; cbn [trace log set_handles set_fs];
  rewrite ?List.filter_app, ?length_app;
  cbn [List.filter List.length is_Transfer]; lia.

(** The two nested [with] statements of [open_drugbank], with the parser
    as block, on a file that is there. *)
Lemma parse_scope path w f :
  fs w !! path = Some f ->
  let out :=
    with_ (zipfile.ZipFile path) zipfile.close (fun zip_file =>
      with_ (zipfile.open zip_file "full database.xml") zipfile.close
        etree.parse) w in
  out.1 = match member_outcome f with
          | inl e => Raise e
          | inr tree => Ok tree
          end
  /\ fs out.2 = fs w
  /\ transfers out.2 = transfers w
  /\ (forall h, is_closed w h -> is_closed out.2 h).
Proof.
  intros Hf out. unfold out, with_, zipfile.ZipFile, member_outcome.
  rewrite Hf. unfold is_closed.
  destruct (zip_view f) as [e|members].
  { unfold lib_raise. cbn [fst snd fs handles log]. split_and!; try done.
    count_scope. }
  unfold zipfile.acquire, zipfile.open.
  cbn [handles log set_handles]. rewrite lookup_insert_eq.
  destruct (zipfile.getinfo "full database.xml" members) as [content|].
  - unfold zipfile.acquire, etree.parse.
    cbn [handles log set_handles next_handle]. rewrite lookup_insert_eq.
    destruct content as [e|tree]; unfold lib_raise, ret, zipfile.close;
      cbn [fst snd fs handles log set_handles].
    all: split_and!; try done; try count_scope.
    all: intros h Hh;
      destruct (decide (h = next_handle w)) as [->|Hz];
      [apply lookup_delete_eq|];
      rewrite lookup_delete_ne by done;
      destruct (decide (h = S (next_handle w))) as [->|Hs];
      [apply lookup_delete_eq|];
      by rewrite lookup_delete_ne, !lookup_insert_ne by done.
  - unfold lib_raise, zipfile.close. cbn [fst snd fs handles log set_handles].
    split_and!; try done; try count_scope.
    intros h Hh. destruct (decide (h = next_handle w)) as [->|Hz];
      [apply lookup_delete_eq|].
    by rewrite lookup_delete_ne, lookup_insert_ne by done.
Qed.

Lemma parse_drugbank_unfold env username password version prefix w :
  parse_drugbank env username password version prefix w =
  match download_drugbank env username password version prefix false w with
  | (Ok path, w1) =>
      with_ (zipfile.ZipFile path) zipfile.close (fun zip_file =>
        with_ (zipfile.open zip_file "full database.xml") zipfile.close
          etree.parse) w1
  | (Raise e, w1) => (Raise e, w1)
  end.
Proof.
  unfold parse_drugbank, open_drugbank, bind.
  destruct (download_drugbank _ _ _ _ _ _ w) as [[path|e] w1]; [|reflexivity].
  by destruct (with_ _ _ _ w1) as [[?|?] ?].
Qed.

Lemma get_drugbank_root_unfold env username password version prefix w :
  get_drugbank_root env username password version prefix w =
  match parse_drugbank env username password version prefix w with
  | (Ok tree, w1) => (Ok (etree.getroot tree), w1)
  | (Raise e, w1) => (Raise e, w1)
  end.
Proof.
  unfold get_drugbank_root, bind, ret.
  by destruct (parse_drugbank _ _ _ _ _ w) as [[?|?] ?].
Qed.

(** X7.  Once [download_drugbank] has handed over a path, [parse_drugbank]
    returns exactly the document that the member "full database.xml" of
    that archive parses to, and [get_drugbank_root] its root; when the
    file is not a zip archive, has no such member, or the member is not
    well-formed, they raise the error of that step.  Either way the cache
    is left as the download left it, nothing more is transferred, and no
    handle stays open. *)
Theorem parse_reads_the_member env username password version prefix w path w1 f :
  download_drugbank env username password version prefix false w = (Ok path, w1) ->
  fs w1 !! path = Some f ->
  let parsed := parse_drugbank env username password version prefix w in
  let rooted := get_drugbank_root env username password version prefix w in
  parsed.1 = match member_outcome f with
             | inl e => Raise e
             | inr tree => Ok tree
             end
  /\ rooted.1 = match member_outcome f with
                | inl e => Raise e
                | inr tree => Ok (root tree)
                end
  /\ rooted.2 = parsed.2
  /\ fs parsed.2 = fs w1
  /\ transfers parsed.2 = transfers w1
  /\ (forall h, is_closed w h -> is_closed parsed.2 h).
Proof.
  intros Hd Hf parsed rooted.
  pose proof (download_drugbank_run env username password version prefix false w)
    as Hrun. apply Run_handles in Hrun. rewrite Hd in Hrun. cbn [snd] in Hrun.
  assert (Hp : parsed =
    with_ (zipfile.ZipFile path) zipfile.close (fun zip_file =>
      with_ (zipfile.open zip_file "full database.xml") zipfile.close
        etree.parse) w1).
  { unfold parsed. by rewrite parse_drugbank_unfold, Hd. }
  destruct (parse_scope path w1 f Hf) as (Hres & Hfs & Htr & Hcl).
  rewrite <- Hp in Hres, Hfs, Htr, Hcl.
  assert (Hr : rooted = match parsed with
                        | (Ok tree, w2) => (Ok (etree.getroot tree), w2)
                        | (Raise e, w2) => (Raise e, w2)
                        end)
    by apply get_drugbank_root_unfold.
  split_and!; try done.
  - rewrite Hr. destruct parsed as [[tree|e] w2]; cbn [fst] in *;
      destruct (member_outcome f); by simplify_eq.
  - rewrite Hr. by destruct parsed as [[tree|e] w2].
  - intros h Hh. apply Hcl. unfold is_closed in *. by rewrite Hrun.
Qed.

Lemma parse_reads_the_member_witness :
  (get_drugbank_root Sample.approved None None None None Sample.empty_world).1
  = Ok (Elem "drugbank" []).
Proof.
  refine (proj1 (proj2 (parse_reads_the_member Sample.approved None None None
    None Sample.empty_world ["drugbank"; "5.1.9"; "full database.xml.zip"]
    (download_drugbank Sample.approved None None None None false
       Sample.empty_world).2 Sample.archive _ _))).
  - vm_compute. reflexivity.
  - vm_compute. reflexivity.
Defined.

Lemma parse_cached env username password version prefix w v u p f :
  resolved_version env version = Some v ->
  credential env "username" username = Some u ->
  credential env "password" password = Some p ->
  fs w !! cache_path prefix v = Some f ->
  (threshold <= st_size f)%Z ->
  let out := parse_drugbank env username password version prefix w in
  out.1 = match member_outcome f with
          | inl e => Raise e
          | inr tree => Ok tree
          end
  /\ fs out.2 = fs w
  /\ transfers out.2 = transfers w.
Proof.
  intros Hv Hu Hp Hf Hsz out. unfold out.
  rewrite parse_drugbank_unfold.
  rewrite (download_cached env _ _ _ _ _ v u p f) by done.
  set (w1 := log _ _).
  assert (Hf1 : fs w1 !! cache_path prefix v = Some f)
    by (unfold w1; cbn [fs log]; by rewrite fs_before_ensure).
  rewrite (validate_big _ _ _ f Hf1 Hsz).
  destruct (parse_scope (cache_path prefix v) w1 f Hf1) as (Hres & Hfs & Htr & _).
  split_and!; [exact Hres| |].
  - rewrite Hfs. unfold w1. cbn [fs log]. apply fs_before_ensure.
  - rewrite Htr. unfold w1, ensure_event.
    rewrite <- (transfers_before_ensure username password version w). count_norm.
Qed.

(** X8.  The size is the only check on a cached file.  A file of at least
    5 MiB that cannot be read (not a zip archive, no member "full
    database.xml", or a member that is not well-formed) makes
    [parse_drugbank] raise the error of that step, and it stays in the
    cache: without [force] the next call finds it again, transfers nothing
    and raises the same error. *)
Theorem unreadable_archive_stays env username password version prefix w v u p f e :
  resolved_version env version = Some v ->
  credential env "username" username = Some u ->
  credential env "password" password = Some p ->
  fs w !! cache_path prefix v = Some f ->
  (5 * 1024 * 1024 <= st_size f)%Z ->
  member_outcome f = inl e ->
  let first := parse_drugbank env username password version prefix w in
  let second := parse_drugbank env username password version prefix first.2 in
  first.1 = Raise e
  /\ fs first.2 !! cache_path prefix v = Some f
  /\ second.1 = Raise e
  /\ fs second.2 !! cache_path prefix v = Some f
  /\ transfers second.2 = transfers w.
Proof.
  intros Hv Hu Hp Hf Hsz He first second.
  destruct (parse_cached env username password version prefix w v u p f)
    as (Hr1 & Hfs1 & Htr1); try done.
  fold first in Hr1, Hfs1, Htr1. rewrite He in Hr1.
  assert (Hf1 : fs first.2 !! cache_path prefix v = Some f) by by rewrite Hfs1.
  destruct (parse_cached env username password version prefix first.2 v u p f)
    as (Hr2 & Hfs2 & Htr2); try done.
  fold second in Hr2, Hfs2, Htr2. rewrite He in Hr2.
  split_and!; try done.
  - by rewrite Hfs2.
  - by rewrite Htr2.
Qed.

Lemma unreadable_archive_stays_witness :
  let big_page :=
    {| st_size := 6 * 1024 * 1024;
       zip_view := inl (BadZipFile "File is not a zip file") |} in
  (parse_drugbank Sample.approved None None None None
     (parse_drugbank Sample.approved None None None None
        (Sample.cached big_page)).2).1
  = Raise (BadZipFile "File is not a zip file").
Proof.
  intros big_page.
  refine (proj1 (proj2 (proj2 (unreadable_archive_stays Sample.approved
    None None None None (Sample.cached big_page) "5.1.9" "alice" "secret"
    big_page (BadZipFile "File is not a zip file") _ _ _ _ _ _)))).
  - reflexivity.
  - reflexivity.
  - reflexivity.
  - vm_compute. reflexivity.
  - vm_compute. discriminate.
  - reflexivity.
Defined.

(** X9.  [parse_drugbank] and [get_drugbank_root] never leak a handle and
    never write to the cache themselves: however they end (download
    failure, unreadable archive, parse error or success), a handle that
    was closed before the call is closed after it, and cache and transfer
    count are those [download_drugbank] left. *)
Theorem parse_leaves_nothing_open env username password version prefix w :
  let down := download_drugbank env username password version prefix false w in
  let parsed := parse_drugbank env username password version prefix w in
  let rooted := get_drugbank_root env username password version prefix w in
  (forall h, is_closed w h -> is_closed parsed.2 h)
  /\ (forall h, is_closed w h -> is_closed rooted.2 h)
  /\ fs parsed.2 = fs down.2 /\ fs rooted.2 = fs down.2
  /\ transfers parsed.2 = transfers down.2
  /\ transfers rooted.2 = transfers down.2.
Proof.
  intros down parsed rooted.
  assert (Hroot : rooted.2 = parsed.2).
  { unfold rooted. rewrite get_drugbank_root_unfold. fold parsed.
    by destruct parsed as [[?|?] ?]. }
  rewrite Hroot.
  assert (Hparsed : (forall h, is_closed w h -> is_closed parsed.2 h)
    /\ fs parsed.2 = fs down.2 /\ transfers parsed.2 = transfers down.2);
    [|by destruct Hparsed as (? & ? & ?)].
  pose proof (download_drugbank_run env username password version prefix false w)
    as Hrun. apply Run_handles in Hrun. fold down in Hrun.
  unfold parsed. rewrite parse_drugbank_unfold. fold down.
  destruct down as [[path|e] w1]; cbn [fst snd] in *.
  2: { split_and!; try done. unfold is_closed. by rewrite Hrun. }
  destruct (fs w1 !! path) as [f|] eqn:Hf.
  - destruct (parse_scope path w1 f Hf) as (_ & Hfs & Htr & Hcl).
    split_and!; try done.
    intros h Hh. apply Hcl. unfold is_closed in *. by rewrite Hrun.
  - unfold with_, zipfile.ZipFile, lib_raise. rewrite Hf.
    cbn [fst snd fs handles log]. split_and!; try done.
    + unfold is_closed. cbn [handles log]. by rewrite Hrun.
    + count_scope.
Qed.

(** ** The text of the unapproved-account error *)

Lemma str_append_empty_r (s : string) : s +:+ "" = s.
Proof.
  induction s as [|c s IH]; [done|].
  change (String c (s +:+ "") = String c s). by rewrite IH.
Qed.

Lemma str_append_assoc (a b c : string) : (a +:+ b) +:+ c = a +:+ (b +:+ c).
Proof.
  induction a as [|x a IH]; [done|].
  change (String x ((a +:+ b) +:+ c) = String x (a +:+ (b +:+ c))).
  by rewrite IH.
Qed.

Lemma splitlines_app (l rest cur : string) :
  no_newline l = true ->
  textwrap.splitlines cur (l +:+ rest) = textwrap.splitlines (cur +:+ l) rest.
Proof.
  revert cur. induction l as [|c l IH]; intros cur Hl.
  - change ("" +:+ rest) with rest. by rewrite str_append_empty_r.
  - cbn in Hl. apply andb_true_iff in Hl as [Hc Hl].
    apply negb_true_iff in Hc.
    change (String c l +:+ rest) with (String c (l +:+ rest)).
    cbn [textwrap.splitlines]. rewrite Hc, (IH _ Hl), str_append_assoc.
    reflexivity.
Qed.

(** Splitting at line feeds undoes joining with line feeds. *)
Lemma splitlines_joinlines (ls : list string) (cur : string) :
  Forall (fun l => no_newline l = true) ls ->
  ls <> [] ->
  textwrap.splitlines cur (textwrap.joinlines ls)
  = match ls with
    | [] => []
    | l :: rest => (cur +:+ l) :: rest
    end.
Proof.
  intros Hall. revert cur.
  induction Hall as [|l ls Hl Hall IH]; intros cur Hne; [done|].
  destruct ls as [|l2 ls].
  - cbn. rewrite <- (str_append_empty_r l) at 1. by rewrite splitlines_app.
  - change (textwrap.joinlines (l :: l2 :: ls))
      with (l +:+ PyStr.nl +:+ textwrap.joinlines (l2 :: ls)).
    rewrite splitlines_app by done.
    change (PyStr.nl +:+ textwrap.joinlines (l2 :: ls))
      with (String (Ascii.ascii_of_nat 10) (textwrap.joinlines (l2 :: ls))).
    cbn [textwrap.splitlines]. rewrite Ascii.eqb_refl.
    by rewrite IH.
Qed.

Lemma no_newline_app (a b : string) :
  no_newline a = true -> no_newline b = true -> no_newline (a +:+ b) = true.
Proof.
  intros Ha Hb. induction a as [|c a IH]; [done|].
  cbn in Ha. apply andb_true_iff in Ha as [Hc Ha].
  change (String c a +:+ b) with (String c (a +:+ b)).
  cbn [no_newline]. by rewrite Hc, IH.
Qed.

(** X10.  For a version without line feed, the message of the
    unapproved-account error is the text of the source without its
    indentation, and it points to the release page of the version as it
    was given, dots included. *)
Theorem unapproved_message_text (v : string) :
  no_newline v = true ->
  unapproved_message v =
  textwrap.joinlines
    [ "";
      "";
      "Your DrugBank credentials were either invalid, or you";
      "have not been approved for downloads.";
      "";
      "Even after signing up for a DrugBank account and getting";
      "a valid username/password combination, DrugBank still has";
      "to manually approve your account to make an academic";
      "download of its data.";
      "";
      "You can tell if your credentials have not been approved by";
      "visiting https://go.drugbank.com/releases/" +:+ v +:+ "#full.";
      "If the download button says " +:+ PyStr.dquote
        +:+ "Ineligible for download" +:+ PyStr.dquote +:+ ", then";
      "you might need to contact DrugBank to get approved, e.g.,";
      "via https://go.drugbank.com/contact.";
      "" ].
Proof.
  intros Hv. unfold unapproved_message, unapproved_text, textwrap.dedent.
  rewrite splitlines_joinlines.
  - vm_compute. reflexivity.
  - repeat (apply Forall_cons_2 || apply Forall_nil_2); try reflexivity.
    change (no_newline
      ("            visiting https://go.drugbank.com/releases/"
         +:+ (v +:+ "#full.")) = true).
    apply no_newline_app; [reflexivity|].
    apply no_newline_app; [exact Hv|reflexivity].
  - done.
Qed.

Lemma unapproved_message_text_witness :
  exists before after,
    unapproved_message "5.1.9"
    = before +:+ "visiting https://go.drugbank.com/releases/5.1.9#full."
        +:+ after.
Proof.
  rewrite (unapproved_message_text "5.1.9" eq_refl).
  exists (textwrap.joinlines
    [ ""; "";
      "Your DrugBank credentials were either invalid, or you";
      "have not been approved for downloads.";
      "";
      "Even after signing up for a DrugBank account and getting";
      "a valid username/password combination, DrugBank still has";
      "to manually approve your account to make an academic";
      "download of its data.";
      "";
      "You can tell if your credentials have not been approved by";
      "" ]).
  eexists. vm_compute. reflexivity.
Defined.

(** ** Keyword arguments *)

Lemma bind_arguments_cases op kw w :
  bind_arguments op kw w =
  match kw_force kw, op with
  | None, _ | Some _, Op_download_drugbank => (Ok tt, w)
  | Some _, _ =>
      (Raise (TypeError (op_name op
                +:+ "() got an unexpected keyword argument 'force'")), w)
  end.
Proof.
  destruct kw as [[?|] [?|] [?|] [?|] [?|]], op; reflexivity.
Qed.

(** X11.  The three operations built on [download_drugbank] can never
    force a download: whatever else is passed, a call of [open_drugbank],
    [parse_drugbank] or [get_drugbank_root] with the keyword [force] stops
    at argument binding with a [TypeError] and touches nothing, and a call
    without it runs with [force=False]; [download_drugbank] itself takes
    the keyword and runs with the value given. *)
Theorem wrappers_reject_force env kw w :
  (forall b, kw_force kw = Some b ->
     (forall (A : Type) (block : Handle -> M A),
        call_open_drugbank env kw block w =
        (Raise (TypeError
           "open_drugbank() got an unexpected keyword argument 'force'"), w))
     /\ call_parse_drugbank env kw w =
        (Raise (TypeError
           "parse_drugbank() got an unexpected keyword argument 'force'"), w)
     /\ call_get_drugbank_root env kw w =
        (Raise (TypeError
           "get_drugbank_root() got an unexpected keyword argument 'force'"), w)
     /\ call_download_drugbank env kw w =
        download_drugbank env (default None (kw_username kw))
          (default None (kw_password kw)) (default None (kw_version kw))
          (default None (kw_prefix kw)) b w)
  /\ (kw_force kw = None ->
      (forall (A : Type) (block : Handle -> M A),
         call_open_drugbank env kw block w =
         open_drugbank env (default None (kw_username kw))
           (default None (kw_password kw)) (default None (kw_version kw))
           (default None (kw_prefix kw)) block w)
      /\ call_parse_drugbank env kw w =
         parse_drugbank env (default None (kw_username kw))
           (default None (kw_password kw)) (default None (kw_version kw))
           (default None (kw_prefix kw)) w
      /\ call_get_drugbank_root env kw w =
         get_drugbank_root env (default None (kw_username kw))
           (default None (kw_password kw)) (default None (kw_version kw))
           (default None (kw_prefix kw)) w
      /\ call_download_drugbank env kw w =
         download_drugbank env (default None (kw_username kw))
           (default None (kw_password kw)) (default None (kw_version kw))
           (default None (kw_prefix kw)) false w).
Proof.
  unfold call_open_drugbank, call_parse_drugbank, call_get_drugbank_root,
    call_download_drugbank.
  split; [intros b Hb|intros Hb]; split_and!; try intros A block;
    unfold bind at 1; rewrite bind_arguments_cases, Hb; reflexivity.
Qed.
